(** * Host communication and streaming reassembly of the Teams client SDK

    A shallow embedding of [packages/teams-js/src/public/media.ts]
    (namespace [media]: the capability gates of [captureImage],
    [getMedia], [selectMedia], [viewImages], [scanBarCode] and the two
    chunk-reassembly strategies of [Media.getMedia]) and of the video
    frame pipeline exercised by [packages/teams-js/test/public/video.spec.ts].

    Promises are modelled by their settlement state, the channel by the
    list of envelopes handed to each transport, the push-handler registry
    by a finite map from event names to handlers. *)

From Stdlib Require Import ZArith NArith String Ascii List Bool Lia.
From stdpp Require Import base option list gmap strings.
Import ListNotations.

Local Open Scope string_scope.
Local Open Scope list_scope.
Local Open Scope Z_scope.

(* ===================================================================== *)
(** * Values crossing the channel *)
(* ===================================================================== *)

(** The serialisable JavaScript values the SDK hands to, or receives from,
    the host.  [JsUndefined] and [JsNull] are kept apart: the code under
    study tells them apart. *)
#[local] Unset Elimination Schemes.
Inductive JsValue : Type :=
| JsUndefined
| JsNull
| JsBool (b : bool)
| JsNumber (n : Z)
| JsString (s : string)
| JsArray (items : list JsValue)
| JsObject (fields : list (string * JsValue)).
#[local] Set Elimination Schemes.

(** The members of [enum ErrorCode] ([public/interfaces]) that [media.ts]
    names; [OTHER_ERROR_CODE] stands for the remaining members, which
    reach this code only inside an error the host reports. *)
Inductive ErrorCode : Type :=
| NOT_SUPPORTED_ON_PLATFORM
| INTERNAL_ERROR
| INVALID_ARGUMENTS
| OLD_PLATFORM
| OTHER_ERROR_CODE (code : Z).

(** [interface SdkError { errorCode: ErrorCode; message?: string }]. *)
Record SdkError : Type := mkSdkError {
  errorCode : ErrorCode;
  message : option string;
}.

(** What a [throw] or a [reject] carries: an [SdkError] object literal
    (as in [throw { errorCode: ... }]), an [Error] built by a collaborator,
    or one of the runtime's own exceptions. *)
Inductive Thrown : Type :=
| ThrownSdkError (e : SdkError)
| ThrownError (msg : string)
| ThrownTypeError
| ThrownSyntaxError.

(** Settlement state of a promise; a settled promise ignores later calls
    of its [resolve] and [reject] functions. *)
Inductive Promise (T : Type) : Type :=
| Pending
| Fulfilled (value : T)
| Rejected (reason : Thrown).
Arguments Pending {T}.
Arguments Fulfilled {T} value.
Arguments Rejected {T} reason.

Definition resolve {T} (value : T) (p : Promise T) : Promise T :=
  match p with
  | Pending => Fulfilled value
  | _ => p
  end.

Definition reject {T} (reason : Thrown) (p : Promise T) : Promise T :=
  match p with
  | Pending => Rejected reason
  | _ => p
  end.

Definition settled {T} (p : Promise T) : bool :=
  match p with
  | Pending => false
  | _ => true
  end.

(* ===================================================================== *)
(** * Constants of [public/constants] *)
(* ===================================================================== *)

(** The members of [FrameContexts] and [HostClientType] that the sources
    name. Both are string enums, a member being its own name as a string:
    the tests pass ['sidePanel'] where a [FrameContexts] is expected. *)
Module FrameContexts.
Definition content : string := "content".
Definition task : string := "task".
Definition sidePanel : string := "sidePanel".
End FrameContexts.

Module HostClientType.
Definition desktop : string := "desktop".
Definition web : string := "web".
Definition android : string := "android".
Definition ios : string := "ios".
Definition rigel : string := "rigel".
Definition teamsRoomsWindows : string := "teamsRoomsWindows".
Definition teamsRoomsAndroid : string := "teamsRoomsAndroid".
Definition teamsPhones : string := "teamsPhones".
Definition teamsDisplays : string := "teamsDisplays".
End HostClientType.

(* ===================================================================== *)
(** * The channel: globals, transports, handler registry *)
(* ===================================================================== *)

(** The fields of [GlobalVars] the code under study reads. *)
Record GlobalVars : Type := mkGlobalVars {
  frameContext : string;
  isFramelessWindow : bool;
  hostClientType : string;
  clientSupportedSDKVersion : string;
}.

(** Outbound envelope: correlation id, function name, ordered arguments. *)
Record MessageRequest : Type := mkMessageRequest {
  msg_id : nat;
  msg_func : string;
  msg_args : list JsValue;
}.

(** The two completion functions a video frame callback receives. *)
Inductive FrameCompletion : Type :=
| NotifyVideoFrameProcessed
| NotifyError (errorMessage : string).

(** An application callback for video frames, described by the completion
    functions it calls, in order, when handed a frame. *)
Definition VideoFrameCallback : Type := JsValue -> list FrameCompletion.

(** What the registry can hold under an event name. [GetMediaHandler a] is
    the closure [getMediaViaHandler] registers for the call that drew the
    action name [a]; [ForeignHandler] stands for the handlers of the other
    capabilities. *)
Inductive Handler : Type :=
| GetMediaHandler (actionName : string)
| NewVideoFrameHandler (frameCallback : VideoFrameCallback)
| EffectParameterChangeHandler
| ForeignHandler (tag : nat).

(** Application callbacks the SDK has invoked, oldest first. *)
Inductive Invocation : Type :=
| FrameCallbackInvoked (frame : JsValue)
| EffectCallbackInvoked (effectId : JsValue).

Record World : Type := mkWorld {
  globalVars : GlobalVars;
  nextMessageId : nat;
  parentWindowPosts : list MessageRequest;
  nativeInterfacePosts : list MessageRequest;
  handlers : gmap string Handler;
  invocations : list Invocation;
}.

(** Everything handed to a transport so far, whichever the topology. *)
Definition transportSends (w : World) : list MessageRequest :=
  parentWindowPosts w ++ nativeInterfacePosts w.

(** The envelopes the active topology's transport has received. *)
Definition outbound (w : World) : list MessageRequest :=
  if isFramelessWindow (globalVars w) then nativeInterfacePosts w
  else parentWindowPosts w.

(** The lookup the test mocks offer: the first envelope sent under a
    function name. *)
Definition findMessageByFunc (func : string) (w : World) : option MessageRequest :=
  find (fun m => String.eqb (msg_func m) func) (outbound w).

(** Function name and arguments of an envelope, its identifier left out. *)
Definition wireOf (m : MessageRequest) : string * list JsValue :=
  (msg_func m, msg_args m).

(** Modelled from the spec: [sendMessageToParent] of
    [internal/communication] (sections 4.1 and 4.2): the request gets the
    next identifier and goes to the transport of the topology chosen at
    start-up, the native bridge when frameless, the parent window
    otherwise; both receive the same envelope. *)
Definition sendMessageToParent (actionName : string) (args : list JsValue)
    (w : World) : World :=
  let request := mkMessageRequest (nextMessageId w) actionName args in
  if isFramelessWindow (globalVars w) then
    mkWorld (globalVars w) (S (nextMessageId w)) (parentWindowPosts w)
            (nativeInterfacePosts w ++ [request]) (handlers w) (invocations w)
  else
    mkWorld (globalVars w) (S (nextMessageId w)) (parentWindowPosts w ++ [request])
            (nativeInterfacePosts w) (handlers w) (invocations w).

Definition setHandlers (h : gmap string Handler) (w : World) : World :=
  mkWorld (globalVars w) (nextMessageId w) (parentWindowPosts w)
          (nativeInterfacePosts w) h (invocations w).

Definition logInvocation (i : Invocation) (w : World) : World :=
  mkWorld (globalVars w) (nextMessageId w) (parentWindowPosts w)
          (nativeInterfacePosts w) (handlers w) (invocations w ++ [i]).

(** Modelled from the spec: [registerHandler] of [internal/handlers]
    (section 4.4): registering stores the callback under the exact event
    name, replacing a previous one, and tells the host about it with a
    ['registerHandler'] message naming the event (the message the video
    tests look up). *)
Definition registerHandler (name : string) (handler : Handler) (w : World) : World :=
  sendMessageToParent "registerHandler" [JsString name]
    (setHandlers (<[name := handler]> (handlers w)) w).

(** Modelled from the spec: [removeHandler] of [internal/handlers]
    (section 4.4): the entry of that name is deleted; removing an absent
    name changes nothing. *)
Definition removeHandler (name : string) (w : World) : World :=
  setHandlers (delete name (handlers w)) w.

(* ===================================================================== *)
(** * Code that can throw *)
(* ===================================================================== *)

(** Result of running a piece of code on a world: it returns a value, or
    it throws; either way the world is what the code left behind. *)
Inductive Outcome (A : Type) : Type :=
| Returns (a : A) (w : World)
| Throws (t : Thrown) (w : World).
Arguments Returns {A} a w.
Arguments Throws {A} t w.

Definition Exec (A : Type) : Type := World -> Outcome A.

Definition throw {A} (t : Thrown) : Exec A := fun w => Throws t w.
Definition perform (f : World -> World) : Exec unit := fun w => Returns tt (f w).
Definition readGlobals : Exec GlobalVars := fun w => Returns (globalVars w) w.

#[global] Instance Exec_ret : MRet Exec := fun A a w => Returns a w.
#[global] Instance Exec_bind : MBind Exec := fun A B k m w =>
  match m w with
  | Returns a w' => k a w'
  | Throws t w' => Throws t w'
  end.

Definition worldOf {A} (o : Outcome A) : World :=
  match o with
  | Returns _ w => w
  | Throws _ w => w
  end.

(** The double quote character, written by its code. *)
Definition dquote : string := String (ascii_of_nat 34) EmptyString.

Definition quoted (s : string) : string := dquote +:+ s +:+ dquote.

Fixpoint joinWith (sep : string) (l : list string) : string :=
  match l with
  | [] => EmptyString
  | [s] => s
  | s :: rest => s +:+ sep +:+ joinWith sep rest
  end.

(** [JSON.stringify] of an array of strings free of characters to escape. *)
Definition stringifyContexts (l : list string) : string :=
  "[" +:+ joinWith "," (map quoted l) +:+ "]".

Definition wrongContextMessage (expected : list string) (current : string) : string :=
  "This call is only allowed in following contexts: " +:+ stringifyContexts expected
  +:+ ". Current context: " +:+ quoted current +:+ ".".

(** Modelled from the spec: [ensureInitialized] of [internal/internalAPIs]
    (sections 4.6 and 7): a call from a frame context outside the expected
    ones is a caller error, raised before anything is sent. The error is
    the [Error] whose message the tests of [video.spec.ts] expect. The
    library is taken as initialised, as after [initializeWithContext]. *)
Definition ensureInitialized (expectedFrameContexts : list string) : Exec unit :=
  g ← readGlobals;
  if existsb (String.eqb (frameContext g)) expectedFrameContexts then mret tt
  else throw (ThrownError (wrongContextMessage expectedFrameContexts (frameContext g))).

(** The promise a capability function returns: a [throw] inside the
    executor of [new Promise] rejects it, otherwise it is the promise the
    executor passed to [resolve]. *)
Definition returnedPromise {T} (o : Outcome (Promise T)) : Promise T :=
  match o with
  | Returns p _ => p
  | Throws t _ => Rejected t
  end.

(** Modelled from the spec: [sendAndHandleSdkError] of
    [internal/communication] (section 4.2):
    the request is sent and the caller gets a future that stays pending
    until the host answers. *)
Definition sendAndHandleSdkError {T} (actionName : string) (args : list JsValue)
    : Exec (Promise T) :=
  perform (sendMessageToParent actionName args);; mret Pending.

(** Modelled from the spec: [sendMessageToParentAsync] of
    [internal/communication] (section 4.2), the same exchange for a
    request whose answer is post-processed by the caller. *)
Definition sendMessageToParentAsync {T} (actionName : string) (args : list JsValue)
    : Exec (Promise T) :=
  perform (sendMessageToParent actionName args);; mret Pending.

(** A [Blob]: its bytes and its MIME type. *)
Record Blob : Type := mkBlob {
  blobParts : list Byte.byte;
  blobType : string;
}.

(* ===================================================================== *)
(** * [namespace media] *)
(* ===================================================================== *)

Module media.

Inductive FileFormat : Type := Base64 | ID.

Record File : Type := mkFile {
  content : string;
  format : FileFormat;
  size : Z;
  mimeType : string;
  name : option string;
}.

(** [class Media extends File], with its [preview]. *)
Record Media : Type := mkMedia {
  asFile :> File;
  preview : string;
}.

Record MediaChunk : Type := mkMediaChunk {
  chunk : string;
  chunkSequence : Z;
}.

(** [interface MediaResult]; the code tests both fields for presence, so
    each may be missing. *)
Record MediaResult : Type := mkMediaResult {
  error : option SdkError;
  mediaChunk : option MediaChunk;
}.

Record AssembleAttachment : Type := mkAssembleAttachment {
  sequence : Z;
  file : Blob;
}.

Record MediaHelper : Type := mkMediaHelper {
  mediaMimeType : string;
  assembleAttachment : list AssembleAttachment;
}.

(** The version thresholds imported from [internal/constants]. *)
Class InternalConstants : Type := {
  captureImageMobileSupportVersion : string;
  getMediaCallbackSupportVersion : string;
  mediaAPISupportVersion : string;
  scanBarCodeAPIMobileSupportVersion : string;
  videoAndImageMediaAPISupportVersion : string;
}.

(** [isAPISupportedByPlatform] of [internal/internalAPIs]: whether the
    host's SDK version reaches the required one. *)
Class InternalAPIs : Type := {
  isAPISupportedByPlatform : string -> GlobalVars -> bool;
}.

(** The two reassembly helpers imported from [internal/mediaUtil]. *)
Class MediaAssembly : Type := {
  createFile : list AssembleAttachment -> string -> Blob;
  decodeAttachment : MediaChunk -> string -> AssembleAttachment;
}.

(** The input validators imported from [internal/mediaUtil]. The inputs of
    [selectMedia], [viewImages] and [scanBarCode] are only validated and
    forwarded, so they are kept as the values they serialise to. *)
Class MediaValidators : Type := {
  isMediaCallForVideoAndImageInputs : JsValue -> bool;
  validateGetMediaInputs : string -> FileFormat -> string -> bool;
  validateScanBarCodeInput : JsValue -> bool;
  validateSelectMediaInputs : JsValue -> bool;
  validateViewImagesInput : JsValue -> bool;
}.

(** The object literal [{ errorCode: code }]. *)
Definition sdkError (code : ErrorCode) : Thrown :=
  ThrownSdkError (mkSdkError code None).

(** [{ errorCode: ErrorCode.INTERNAL_ERROR, message: 'data receieved is null' }] *)
Definition dataReceivedIsNull : Thrown :=
  ThrownSdkError (mkSdkError INTERNAL_ERROR (Some "data receieved is null")).

(** State of one [getMedia] call: the promise handed to the caller and the
    [helper] its chunk callback closes over. *)
Record GetMediaCall : Type := mkGetMediaCall {
  promise : Promise Blob;
  helper : MediaHelper;
}.

Definition settle (f : Promise Blob -> Promise Blob) (call : GetMediaCall) : GetMediaCall :=
  mkGetMediaCall (f (promise call)) (helper call).

(** [helper.assembleAttachment.push(assemble)] *)
Definition push (assemble : AssembleAttachment) (call : GetMediaCall) : GetMediaCall :=
  mkGetMediaCall (promise call)
    (mkMediaHelper (mediaMimeType (helper call))
                   (assembleAttachment (helper call) ++ [assemble])).

(** What [JSON.parse(response)] yields in the named handler: a syntax
    error, or a value that is [null] or a [MediaResult]. *)
Inductive JsonParse : Type :=
| JsonSyntaxError
| JsonValue (mediaResult : option MediaResult).

(** The envelope of a chunk the host reports without error. *)
Definition chunkEnvelope (c : MediaChunk) : MediaResult :=
  mkMediaResult None (Some c).

Section Capabilities.
Context {constants : InternalConstants} {internalAPIs : InternalAPIs}
  {assembly : MediaAssembly} {validators : MediaValidators}.

Definition supported (requiredVersion : string) : Exec bool :=
  g ← readGlobals; mret (isAPISupportedByPlatform requiredVersion g).

Definition captureImage : Exec (Promise (list File)) :=
  ensureInitialized [FrameContexts.content; FrameContexts.task];;
  g ← readGlobals;
  if negb (isFramelessWindow g) then throw (sdkError NOT_SUPPORTED_ON_PLATFORM)
  else
    ok ← supported captureImageMobileSupportVersion;
    if negb ok then throw (sdkError OLD_PLATFORM)
    else sendAndHandleSdkError "captureImage" [].

(** The callback [getMediaViaCallback] passes to [sendMessageToParent],
    run on one inbound [mediaResult] ([None] is [null] or [undefined]). *)
Definition getMediaCallback (mediaResult : option MediaResult) (call : GetMediaCall)
    : GetMediaCall :=
  match mediaResult with
  | Some r =>
      match error r with
      | Some e => settle (reject (ThrownSdkError e)) call
      | None =>
          match mediaChunk r with
          | None => settle (reject dataReceivedIsNull) call
          | Some c =>
              if chunkSequence c <=? 0 then
                settle (resolve (createFile (assembleAttachment (helper call))
                                            (mediaMimeType (helper call)))) call
              else
                push (decodeAttachment c (mediaMimeType (helper call))) call
          end
      end
  | None => settle (reject dataReceivedIsNull) call
  end.

Definition getMediaViaCallback (this : Media) : Exec GetMediaCall :=
  let helper := mkMediaHelper (mimeType this) [] in
  let localUriId := [JsString (content this)] in
  perform (sendMessageToParent "getMedia" localUriId);;
  mret (mkGetMediaCall Pending helper).

(** The handler [getMediaViaHandler] registers under
    ['getMedia' + actionName], run on one parsed [response]. Reading
    [mediaResult.error] off [null] throws a [TypeError]. *)
Definition getMediaHandler (actionName : string) (response : JsonParse)
    (call : GetMediaCall) : Exec GetMediaCall :=
  match response with
  | JsonSyntaxError => throw ThrownSyntaxError
  | JsonValue None => throw ThrownTypeError
  | JsonValue (Some mediaResult) =>
      match error mediaResult with
      | Some e =>
          let call' := settle (reject (ThrownSdkError e)) call in
          perform (removeHandler ("getMedia" +:+ actionName));; mret call'
      | None =>
          match mediaChunk mediaResult with
          | None =>
              let call' := settle (reject dataReceivedIsNull) call in
              perform (removeHandler ("getMedia" +:+ actionName));; mret call'
          | Some c =>
              if chunkSequence c <=? 0 then
                let file := createFile (assembleAttachment (helper call))
                                       (mediaMimeType (helper call)) in
                let call' := settle (resolve file) call in
                perform (removeHandler ("getMedia" +:+ actionName));; mret call'
              else
                mret (push (decodeAttachment c (mediaMimeType (helper call))) call)
          end
      end
  end.

(** [actionName] is the identifier [generateGUID()] drew for this call. *)
Definition getMediaViaHandler (this : Media) (actionName : string) : Exec GetMediaCall :=
  let helper := mkMediaHelper (mimeType this) [] in
  let params := [JsString actionName; JsString (content this)] in
  (if String.eqb (content this) EmptyString then mret tt
   else perform (sendMessageToParent "getMedia" params));;
  perform (registerHandler ("getMedia" +:+ actionName) (GetMediaHandler actionName));;
  mret (mkGetMediaCall Pending helper).

(** Executor of the promise [getMedia] returns; the promise follows the
    one of the strategy chosen. *)
Definition getMedia (this : Media) (actionName : string) : Exec GetMediaCall :=
  ensureInitialized [FrameContexts.content; FrameContexts.task];;
  ok ← supported mediaAPISupportVersion;
  if negb ok then throw (sdkError OLD_PLATFORM)
  else if negb (validateGetMediaInputs (mimeType this) (format this) (content this))
  then throw (sdkError INVALID_ARGUMENTS)
  else
    viaCallback ← supported getMediaCallbackSupportVersion;
    if viaCallback : bool then getMediaViaCallback this
    else getMediaViaHandler this actionName.

(** Executor of the promise [selectMedia] builds; the continuation that
    wraps the host's attachments into [Media] objects runs on the host's
    answer only. *)
Definition selectMedia (mediaInputs : JsValue) : Exec (Promise (list Media)) :=
  ensureInitialized [FrameContexts.content; FrameContexts.task];;
  ok ← supported mediaAPISupportVersion;
  if negb ok then throw (sdkError OLD_PLATFORM)
  else
    g ← readGlobals;
    (if isMediaCallForVideoAndImageInputs mediaInputs then
       if negb (String.eqb (hostClientType g) HostClientType.android)
          && negb (String.eqb (hostClientType g) HostClientType.ios)
       then throw (sdkError NOT_SUPPORTED_ON_PLATFORM)
       else
         ok2 ← supported videoAndImageMediaAPISupportVersion;
         if negb ok2 then throw (sdkError OLD_PLATFORM) else mret tt
     else mret tt);;
    if negb (validateSelectMediaInputs mediaInputs)
    then throw (sdkError INVALID_ARGUMENTS)
    else
      let params := [mediaInputs] in
      sendMessageToParentAsync "selectMedia" params.

Definition viewImages (uriList : JsValue) : Exec (Promise unit) :=
  ensureInitialized [FrameContexts.content; FrameContexts.task];;
  ok ← supported mediaAPISupportVersion;
  if negb ok then throw (sdkError OLD_PLATFORM)
  else if negb (validateViewImagesInput uriList)
  then throw (sdkError INVALID_ARGUMENTS)
  else sendAndHandleSdkError "viewImages" [uriList].

Definition scanBarCode (config : JsValue) : Exec (Promise string) :=
  ensureInitialized [FrameContexts.content; FrameContexts.task];;
  g ← readGlobals;
  if String.eqb (hostClientType g) HostClientType.desktop
     || String.eqb (hostClientType g) HostClientType.web
     || String.eqb (hostClientType g) HostClientType.rigel
     || String.eqb (hostClientType g) HostClientType.teamsRoomsWindows
     || String.eqb (hostClientType g) HostClientType.teamsRoomsAndroid
     || String.eqb (hostClientType g) HostClientType.teamsPhones
     || String.eqb (hostClientType g) HostClientType.teamsDisplays
  then throw (sdkError NOT_SUPPORTED_ON_PLATFORM)
  else
    ok ← supported scanBarCodeAPIMobileSupportVersion;
    if negb ok then throw (sdkError OLD_PLATFORM)
    else if negb (validateScanBarCodeInput config)
    then throw (sdkError INVALID_ARGUMENTS)
    else sendAndHandleSdkError "media.scanBarCode" [config].

(** ** Inbound traffic of one [getMedia] call *)

(** The callback strategy: the responses to the request, in arrival order. *)
Definition feedCallback (responses : list (option MediaResult)) (call : GetMediaCall)
    : GetMediaCall :=
  fold_left (fun c r => getMediaCallback r c) responses call.

(** The handler strategy: the registry dispatches a pushed event by its
    exact name; an event without a handler is dropped. Only the closure
    of the call under study, the one that drew [actionName], acts on the
    state of that call. *)
Definition callHandler (actionName : string) (name : string) (response : JsonParse)
    (call : GetMediaCall) : Exec GetMediaCall :=
  fun w =>
    match handlers w !! name with
    | Some (GetMediaHandler a) =>
        if String.eqb a actionName then getMediaHandler actionName response call w
        else Returns call w
    | _ => Returns call w
    end.

(** One turn of the event loop: an exception escaping the handler is not
    caught by the call, which stays as it was. *)
Definition deliver (actionName : string) (event : string * JsonParse)
    (s : GetMediaCall * World) : GetMediaCall * World :=
  match callHandler actionName (fst event) (snd event) (fst s) (snd s) with
  | Returns call' w' => (call', w')
  | Throws _ w' => (fst s, w')
  end.

Definition deliverAll (actionName : string) (events : list (string * JsonParse))
    (s : GetMediaCall * World) : GetMediaCall * World :=
  fold_left (fun s e => deliver actionName e s) events s.

(** The envelopes of a stream of chunks, as each strategy receives them. *)
Definition responsesOf (chunks : list MediaChunk) : list (option MediaResult) :=
  map (fun c => Some (chunkEnvelope c)) chunks.

Definition eventsOf (actionName : string) (chunks : list MediaChunk)
    : list (string * JsonParse) :=
  map (fun c => ("getMedia" +:+ actionName, JsonValue (Some (chunkEnvelope c)))) chunks.

(** The call once [chunks] have been decoded and pushed, in that order. *)
Definition accumulate (chunks : list MediaChunk)
    (call : GetMediaCall) : GetMediaCall :=
  mkGetMediaCall (promise call)
    (mkMediaHelper (mediaMimeType (helper call))
       (assembleAttachment (helper call)
        ++ map (fun c => decodeAttachment c (mediaMimeType (helper call))) chunks)).

(** ** The five capability operations, as one family *)

Inductive Operation : Type :=
| CaptureImage
| GetMedia (this : Media) (actionName : string)
| SelectMedia (mediaInputs : JsValue)
| ViewImages (uriList : JsValue)
| ScanBarCode (config : JsValue).

Definition erase {T} (p : Promise T) : Promise unit :=
  match p with
  | Pending => Pending
  | Fulfilled _ => Fulfilled tt
  | Rejected t => Rejected t
  end.

Definition invoke (op : Operation) : Exec (Promise unit) :=
  match op with
  | CaptureImage => p ← captureImage; mret (erase p)
  | GetMedia this actionName => c ← getMedia this actionName; mret (erase (promise c))
  | SelectMedia mediaInputs => p ← selectMedia mediaInputs; mret (erase p)
  | ViewImages uriList => p ← viewImages uriList; mret (erase p)
  | ScanBarCode config => p ← scanBarCode config; mret (erase p)
  end.

(** The caller-error conditions of section 7 of the specification, per
    operation: is the frame context an allowed one, is the platform
    supported, is the platform's version recent enough, are the
    arguments valid. *)
Record CallerGates : Type := mkCallerGates {
  contextAllowed : bool;
  platformSupported : bool;
  versionSupported : bool;
  argumentsValid : bool;
}.

Definition allowedContexts : list string :=
  [FrameContexts.content; FrameContexts.task].

Definition inAllowedContext (g : GlobalVars) : bool :=
  bool_decide (frameContext g ∈ allowedContexts).

Definition mobileHost (g : GlobalVars) : bool :=
  bool_decide (hostClientType g = HostClientType.android
               ∨ hostClientType g = HostClientType.ios).

Definition scanBarCodeUnsupportedHosts : list string :=
  [HostClientType.desktop; HostClientType.web; HostClientType.rigel;
   HostClientType.teamsRoomsWindows; HostClientType.teamsRoomsAndroid;
   HostClientType.teamsPhones; HostClientType.teamsDisplays].

Definition callerGates (op : Operation) (g : GlobalVars) : CallerGates :=
  match op with
  | CaptureImage =>
      mkCallerGates (inAllowedContext g) (isFramelessWindow g)
        (isAPISupportedByPlatform captureImageMobileSupportVersion g) true
  | GetMedia this _ =>
      mkCallerGates (inAllowedContext g) true
        (isAPISupportedByPlatform mediaAPISupportVersion g)
        (validateGetMediaInputs (mimeType this) (format this) (content this))
  | SelectMedia mediaInputs =>
      mkCallerGates (inAllowedContext g)
        (if isMediaCallForVideoAndImageInputs mediaInputs then mobileHost g else true)
        (isAPISupportedByPlatform mediaAPISupportVersion g
         && (if isMediaCallForVideoAndImageInputs mediaInputs
             then isAPISupportedByPlatform videoAndImageMediaAPISupportVersion g
             else true))
        (validateSelectMediaInputs mediaInputs)
  | ViewImages uriList =>
      mkCallerGates (inAllowedContext g) true
        (isAPISupportedByPlatform mediaAPISupportVersion g)
        (validateViewImagesInput uriList)
  | ScanBarCode config =>
      mkCallerGates (inAllowedContext g)
        (bool_decide (hostClientType g ∉ scanBarCodeUnsupportedHosts))
        (isAPISupportedByPlatform scanBarCodeAPIMobileSupportVersion g)
        (validateScanBarCodeInput config)
  end.

Definition allPass (c : CallerGates) : bool :=
  contextAllowed c && platformSupported c && versionSupported c && argumentsValid c.

(** The rejection [t] answers one of the failed conditions of [c], the
    context one first. *)
Definition blames (g : GlobalVars) (c : CallerGates) (t : Thrown) : Prop :=
  if contextAllowed c then
    (t = sdkError NOT_SUPPORTED_ON_PLATFORM ∧ platformSupported c = false)
    ∨ (t = sdkError OLD_PLATFORM ∧ versionSupported c = false)
    ∨ (t = sdkError INVALID_ARGUMENTS ∧ argumentsValid c = false)
  else t = ThrownError (wrongContextMessage allowedContexts (frameContext g)).

End Capabilities.

(** ** The rest of [media.ts] *)

(** The assignments of the [Media] constructor: the six fields of [that],
    one by one. *)
Definition copyFields (that : Media) : Media :=
  mkMedia (mkFile (content that) (format that) (size that) (mimeType that) (name that))
          (preview that).

(** [new Media(that)]. On the way in [None] is a missing or [null] [that];
    on the way out it is the object none of whose fields is set. *)
Definition newMedia (that : option Media) : option Media :=
  match that with
  | Some that => Some (copyFields that)
  | None => None
  end.

(** The continuation [selectMedia] chains on the host's answer
    [[err, localAttachments]]: [inr err] is [throw err], [inl mediaArray]
    the array returned. An array, even empty, is truthy. *)
Definition selectMediaThen (err : option SdkError) (localAttachments : option (list Media))
    : list Media + option SdkError :=
  match localAttachments with
  | None => inr err
  | Some attachments =>
      inl (fold_left (fun mediaArray attachment => mediaArray ++ [copyFields attachment])
                     attachments [])
  end.

(** The function name each operation sends its request under. *)
Definition requestName (op : Operation) : string :=
  match op with
  | CaptureImage => "captureImage"
  | GetMedia _ _ => "getMedia"
  | SelectMedia _ => "selectMedia"
  | ViewImages _ => "viewImages"
  | ScanBarCode _ => "media.scanBarCode"
  end.

(** Is the envelope one the chunk callback only accumulates: no error, a
    chunk, a positive sequence number. *)
Definition isDataEnvelope (r : MediaResult) : bool :=
  match error r, mediaChunk r with
  | None, Some c => negb (chunkSequence c <=? 0)
  | _, _ => false
  end.

(** Did [JSON.parse] yield a [MediaResult]. *)
Definition parsed (response : JsonParse) : bool :=
  match response with
  | JsonValue (Some _) => true
  | _ => false
  end.

(** The events that carry a stream of envelopes to the named handler. *)
Definition eventsOfResults (actionName : string) (results : list MediaResult)
    : list (string * JsonParse) :=
  map (fun r => ("getMedia" +:+ actionName, JsonValue (Some r))) results.

End media.

(* ===================================================================== *)
(** * [internal/mediaUtil]: the reassembly helpers *)
(* ===================================================================== *)

Module mediaUtil.
Import media.

(** Value of one character of the base64 alphabet. *)
Definition sextet (c : ascii) : option N :=
  let n := N_of_ascii c in
  if (65 <=? n)%N && (n <=? 90)%N then Some (n - 65)%N
  else if (97 <=? n)%N && (n <=? 122)%N then Some (n - 71)%N
  else if (48 <=? n)%N && (n <=? 57)%N then Some (n + 4)%N
  else if (n =? 43)%N then Some 62%N
  else if (n =? 47)%N then Some 63%N
  else None.

(** The sextets of a base64 text, up to its padding. *)
Fixpoint sextets (s : string) : list N :=
  match s with
  | EmptyString => []
  | String c rest =>
      match sextet c with
      | Some v => v :: sextets rest
      | None => []
      end
  end.

Definition toByte (n : N) : Byte.byte :=
  match Byte.of_N (n mod 256) with
  | Some b => b
  | None => Byte.x00
  end.

Fixpoint octets (l : list N) : list Byte.byte :=
  match l with
  | a :: b :: c :: d :: rest =>
      toByte (a * 4 + b / 16) :: toByte ((b mod 16) * 16 + c / 4)
        :: toByte ((c mod 4) * 64 + d) :: octets rest
  | [a; b; c] => [toByte (a * 4 + b / 16); toByte ((b mod 16) * 16 + c / 4)]
  | [a; b] => [toByte (a * 4 + b / 16)]
  | _ => []
  end%N.

(** The platform's [atob] on well-formed base64. *)
Definition atob (s : string) : list Byte.byte := octets (sextets s).

Section Assembly.
Variable decode : string -> list Byte.byte.

(** Modelled from the spec: [decodeAttachment] of [internal/mediaUtil]
    (section 4.5: decode the chunk's payload and tag the attachment
    with the chunk's sequence number). *)
Definition decodeAttachment (attachment : MediaChunk) (mimeType : string)
    : AssembleAttachment :=
  mkAssembleAttachment (chunkSequence attachment)
                       (mkBlob (decode (chunk attachment)) mimeType).

(** Modelled from the spec: [createFile] of [internal/mediaUtil]
    (section 4.5: the accumulated attachments are concatenated into a
    final binary object). *)
Definition createFile (assembleAttachment : list AssembleAttachment)
    (mimeType : string) : Blob :=
  mkBlob (concat (map (fun a => blobParts (file a)) assembleAttachment)) mimeType.

Definition assembly : MediaAssembly :=
  {| media.createFile := createFile; media.decodeAttachment := decodeAttachment |}.
End Assembly.
End mediaUtil.

(* ===================================================================== *)
(** * [namespace video] *)
(* ===================================================================== *)

Module video.

(** Modelled from the spec: [notifyVideoFrameProcessed] of [public/video]
    (section 4.6: acknowledging sends a frame-processed signal with no
    payload; the tests look it up as ['video.videoFrameProcessed']). *)
Definition notifyVideoFrameProcessed : World -> World :=
  sendMessageToParent "video.videoFrameProcessed" [].

(** Modelled from the spec: [notifyError] of [public/video] (section 4.6:
    failing sends an error signal carrying the message text; the tests
    look it up as ['video.notifyError']). *)
Definition notifyError (errorMessage : string) : World -> World :=
  sendMessageToParent "video.notifyError" [JsString errorMessage].

Definition complete (c : FrameCompletion) : World -> World :=
  match c with
  | NotifyVideoFrameProcessed => notifyVideoFrameProcessed
  | NotifyError errorMessage => notifyError errorMessage
  end.

(** Modelled from the spec: the handler [registerForVideoFrame] of
    [public/video] registers for ['video.newVideoFrame'] (section 4.6),
    with the drop rule the tests of [video.spec.ts] pin down: an
    [undefined] frame never reaches the callback, while a [null] frame
    does (the test callback answers it with [notifyError]). *)
Definition newVideoFrameHandler (frameCallback : VideoFrameCallback)
    (videoFrame : JsValue) (w : World) : World :=
  match videoFrame with
  | JsUndefined => w
  | _ =>
      fold_left (fun w c => complete c w) (frameCallback videoFrame)
                (logInvocation (FrameCallbackInvoked videoFrame) w)
  end.

(** Modelled from the spec: [registerForVideoFrame] of [public/video]
    (section 4.6): context gate first, then the handler registration and
    the ['video.registerForVideoFrame'] request carrying the config. *)
Definition registerForVideoFrame (frameCallback : VideoFrameCallback)
    (config : JsValue) : Exec unit :=
  ensureInitialized [FrameContexts.sidePanel];;
  perform (registerHandler "video.newVideoFrame" (NewVideoFrameHandler frameCallback));;
  perform (sendMessageToParent "video.registerForVideoFrame" [config]).

(** Modelled from the spec: [notifySelectedVideoEffectChanged] of
    [public/video] (section 4.6, the companion event-change notifier). *)
Definition notifySelectedVideoEffectChanged (effectChangeType effectId : JsValue)
    : Exec unit :=
  ensureInitialized [FrameContexts.sidePanel];;
  perform (sendMessageToParent "video.videoEffectChanged" [effectChangeType; effectId]).

(** Modelled from the spec: [registerForVideoEffect] of [public/video]
    (sections 4.6 and 6: the handler for effect-parameter changes). *)
Definition registerForVideoEffect : Exec unit :=
  ensureInitialized [FrameContexts.sidePanel];;
  perform (registerHandler "video.effectParameterChange" EffectParameterChangeHandler).

(** Modelled from the spec: dispatch of a pushed event by the registry
    (section 4.4): looked up by exact name, dropped when nobody listens;
    the handler gets the first argument, [undefined] when there is none. *)
Definition callHandler (name : string) (args : list JsValue) (w : World) : World :=
  match handlers w !! name with
  | Some (NewVideoFrameHandler frameCallback) =>
      newVideoFrameHandler frameCallback (nth 0 args JsUndefined) w
  | Some EffectParameterChangeHandler =>
      logInvocation (EffectCallbackInvoked (nth 0 args JsUndefined)) w
  | _ => w
  end.

(** A frame the handler lets through. *)
Definition isUndefined (v : JsValue) : bool :=
  match v with
  | JsUndefined => true
  | _ => false
  end.

(** The host pushes frames, one event each. *)
Definition pushFrames (frames : list JsValue) (w : World) : World :=
  fold_left (fun w frame => callHandler "video.newVideoFrame" [frame] w) frames w.

(** The host pushes effect-parameter changes, one event each. *)
Definition pushEffects (effectIds : list JsValue) (w : World) : World :=
  fold_left (fun w effectId => callHandler "video.effectParameterChange" [effectId] w)
            effectIds w.

(** Function name and arguments of the envelope a completion sends. *)
Definition wire (c : FrameCompletion) : string * list JsValue :=
  match c with
  | NotifyVideoFrameProcessed => ("video.videoFrameProcessed", [])
  | NotifyError errorMessage => ("video.notifyError", [JsString errorMessage])
  end.

End video.

(* ===================================================================== *)
(** * A concrete host, to run the model on *)
(* ===================================================================== *)

Module Sample.
Import media.

Definition constants : InternalConstants :=
  {| captureImageMobileSupportVersion := "1.7.0";
     getMediaCallbackSupportVersion := "2.0.0";
     mediaAPISupportVersion := "1.8.0";
     scanBarCodeAPIMobileSupportVersion := "1.9.0";
     videoAndImageMediaAPISupportVersion := "2.0.2" |}.

(** Versions compared as text, enough for one-digit components. *)
Definition internalAPIs : InternalAPIs :=
  {| isAPISupportedByPlatform := fun requiredVersion g =>
       String.leb requiredVersion (clientSupportedSDKVersion g) |}.

Definition present (v : JsValue) : bool :=
  match v with
  | JsUndefined | JsNull => false
  | _ => true
  end.

Definition validators : MediaValidators :=
  {| isMediaCallForVideoAndImageInputs := fun v =>
       match v with
       | JsObject (("mediaType", JsNumber 3) :: _) => true
       | _ => false
       end;
     validateGetMediaInputs := fun mimeType format content =>
       match format with
       | ID => negb (String.eqb content EmptyString)
       | Base64 => false
       end;
     validateScanBarCodeInput := fun _ => true;
     validateSelectMediaInputs := present;
     validateViewImagesInput := present |}.

Definition world (context : string) (frameless : bool) (host version : string) : World :=
  mkWorld (mkGlobalVars context frameless host version) 0 [] [] ∅ [].

Definition image : Media :=
  mkMedia (mkFile "1234567" ID 300 "image/jpeg" None) EmptyString.

(** The frame of the video tests. *)
Definition videoFrameMock : JsValue :=
  JsObject [("width", JsNumber 30); ("height", JsNumber 40); ("data", JsNumber 101)].

(** The callback of the [notifyError] test. *)
Definition videoEffectCallback : VideoFrameCallback := fun frame =>
  match frame with
  | JsNull => [NotifyError "error occurs"]
  | _ => [NotifyVideoFrameProcessed]
  end.

Definition assembly : MediaAssembly := mediaUtil.assembly mediaUtil.atob.

(** A host-reported error, alone and on an envelope that lacks its chunk. *)
Definition hostError : SdkError := mkSdkError (OTHER_ERROR_CODE 1000) (Some "denied").

Definition errorEnvelope : MediaResult := mkMediaResult (Some hostError) None.

(** A call in progress that has already accumulated one chunk. *)
Definition callInProgress : GetMediaCall :=
  mkGetMediaCall Pending
    (mkMediaHelper "image/jpeg"
       [mediaUtil.decodeAttachment mediaUtil.atob (mkMediaChunk "AQID" 1) "image/jpeg"]).

(** The four chunks of the reassembly example, numbered 3, 2, 1, 0. *)
Definition chunks321 : list MediaChunk :=
  [mkMediaChunk "AQID" 3; mkMediaChunk "BAUG" 2; mkMediaChunk "Bwg=" 1].

Definition chunk0 : MediaChunk := mkMediaChunk EmptyString 0.

End Sample.

(* ===================================================================== *)
(** * Properties of the chunk reassembly *)
(* ===================================================================== *)

Import media.

(** Runs the monadic glue of [Exec] away. *)
Ltac run_exec :=
  unfold mbind, mret, Exec_bind, Exec_ret, perform, throw, readGlobals; cbn.

Lemma resolve_settled {T} (v : T) (p : Promise T) :
  settled p = true -> resolve v p = p.
Proof. by destruct p. Qed.

Lemma reject_settled {T} (t : Thrown) (p : Promise T) :
  settled p = true -> reject t p = p.
Proof. by destruct p. Qed.

Lemma settled_resolve {T} (v : T) (p : Promise T) : settled (resolve v p) = true.
Proof. by destruct p. Qed.

Lemma settled_reject {T} (t : Thrown) (p : Promise T) : settled (reject t p) = true.
Proof. by destruct p. Qed.

Lemma handlers_removeHandler name w :
  handlers (removeHandler name w) = delete name (handlers w).
Proof. reflexivity. Qed.

Lemma transportSends_removeHandler name w :
  transportSends (removeHandler name w) = transportSends w.
Proof. reflexivity. Qed.

Lemma handlers_sendMessageToParent f args w :
  handlers (sendMessageToParent f args w) = handlers w.
Proof. unfold sendMessageToParent. by destruct (isFramelessWindow _). Qed.

Lemma globalVars_sendMessageToParent f args w :
  globalVars (sendMessageToParent f args w) = globalVars w.
Proof. unfold sendMessageToParent. by destruct (isFramelessWindow _). Qed.

Lemma outbound_sendMessageToParent f args w :
  outbound (sendMessageToParent f args w)
  = outbound w ++ [mkMessageRequest (nextMessageId w) f args].
Proof.
  unfold outbound, sendMessageToParent.
  destruct (isFramelessWindow (globalVars w)) eqn:E; cbn; by rewrite E.
Qed.

Lemma length_transportSends_sendMessageToParent f args w :
  length (transportSends (sendMessageToParent f args w))
  = S (length (transportSends w)).
Proof.
  unfold transportSends, sendMessageToParent.
  destruct (isFramelessWindow (globalVars w)); cbn;
    rewrite !length_app; cbn; lia.
Qed.

Section Reassembly.
Context {assembly : MediaAssembly}.

(** ** One inbound envelope *)

Lemma getMediaCallback_error r e call :
  error r = Some e ->
  getMediaCallback (Some r) call = settle (reject (ThrownSdkError e)) call.
Proof. intros E. unfold getMediaCallback. by rewrite E. Qed.

Lemma getMediaCallback_null_chunk r call :
  error r = None -> mediaChunk r = None ->
  getMediaCallback (Some r) call = settle (reject dataReceivedIsNull) call.
Proof. intros E C. unfold getMediaCallback. by rewrite E, C. Qed.

Lemma getMediaCallback_terminal c call :
  chunkSequence c <= 0 ->
  getMediaCallback (Some (chunkEnvelope c)) call
  = settle (resolve (createFile (assembleAttachment (helper call))
                                (mediaMimeType (helper call)))) call.
Proof.
  intros L. unfold getMediaCallback; cbn.
  destruct (Z.leb_spec (chunkSequence c) 0); [done | lia].
Qed.

Lemma getMediaCallback_data c call :
  0 < chunkSequence c ->
  getMediaCallback (Some (chunkEnvelope c)) call
  = push (decodeAttachment c (mediaMimeType (helper call))) call.
Proof.
  intros L. unfold getMediaCallback; cbn.
  destruct (Z.leb_spec (chunkSequence c) 0); [lia | done].
Qed.

Lemma getMediaHandler_error a r e call w :
  error r = Some e ->
  getMediaHandler a (JsonValue (Some r)) call w
  = Returns (settle (reject (ThrownSdkError e)) call)
            (removeHandler ("getMedia" +:+ a) w).
Proof. intros E. unfold getMediaHandler. by rewrite E. Qed.

Lemma getMediaHandler_null_chunk a r call w :
  error r = None -> mediaChunk r = None ->
  getMediaHandler a (JsonValue (Some r)) call w
  = Returns (settle (reject dataReceivedIsNull) call)
            (removeHandler ("getMedia" +:+ a) w).
Proof. intros E C. unfold getMediaHandler. by rewrite E, C. Qed.

Lemma getMediaHandler_terminal a c call w :
  chunkSequence c <= 0 ->
  getMediaHandler a (JsonValue (Some (chunkEnvelope c))) call w
  = Returns (settle (resolve (createFile (assembleAttachment (helper call))
                                         (mediaMimeType (helper call)))) call)
            (removeHandler ("getMedia" +:+ a) w).
Proof.
  intros L. unfold getMediaHandler; cbn.
  destruct (Z.leb_spec (chunkSequence c) 0); [done | lia].
Qed.

Lemma getMediaHandler_data a c call w :
  0 < chunkSequence c ->
  getMediaHandler a (JsonValue (Some (chunkEnvelope c))) call w
  = Returns (push (decodeAttachment c (mediaMimeType (helper call))) call) w.
Proof.
  intros L. unfold getMediaHandler; cbn.
  destruct (Z.leb_spec (chunkSequence c) 0); [lia | done].
Qed.

(** ** A settled call stays as it settled *)

Lemma getMediaCallback_settled r call :
  settled (promise call) = true ->
  promise (getMediaCallback r call) = promise call.
Proof.
  intros S. unfold getMediaCallback.
  repeat case_match; cbn; auto using resolve_settled, reject_settled.
Qed.

Lemma feedCallback_settled responses call :
  settled (promise call) = true ->
  promise (feedCallback responses call) = promise call.
Proof.
  revert call. induction responses as [|r rs IH]; intros call S; [done|].
  change (feedCallback (r :: rs) call) with (feedCallback rs (getMediaCallback r call)).
  rewrite IH; rewrite getMediaCallback_settled; auto.
Qed.

Lemma getMediaHandler_settled a response call w call' w' :
  settled (promise call) = true ->
  getMediaHandler a response call w = Returns call' w' ->
  promise call' = promise call.
Proof.
  intros S. unfold getMediaHandler.
  repeat case_match; cbn; intros [= <- <-]; cbn;
    auto using resolve_settled, reject_settled.
Qed.

Lemma deliver_settled a event s :
  settled (promise (fst s)) = true ->
  promise (fst (deliver a event s)) = promise (fst s).
Proof.
  intros S. unfold deliver, callHandler.
  destruct (handlers (snd s) !! fst event) as [[b| | |]|]; try done.
  destruct (String.eqb b a); [|done].
  destruct (getMediaHandler a (snd event) (fst s) (snd s)) eqn:E; [|done].
  cbn. eauto using getMediaHandler_settled.
Qed.

Lemma deliverAll_settled a events s :
  settled (promise (fst s)) = true ->
  promise (fst (deliverAll a events s)) = promise (fst s).
Proof.
  revert s. induction events as [|e es IH]; intros s S; [done|].
  change (deliverAll a (e :: es) s) with (deliverAll a es (deliver a e s)).
  rewrite IH; rewrite deliver_settled; auto.
Qed.

End Reassembly.

(** ** Host-reported errors *)

(** C3. In both delivery strategies of [getMedia], an inbound envelope
    with a host error field rejects the pending promise with that very
    error; whatever arrives afterwards, the promise stays rejected with
    it, so no blob is ever built from the chunks accumulated before. *)
Theorem getMedia_host_error_rejects {assembly : MediaAssembly}
    (r : MediaResult) (e : SdkError) (call : GetMediaCall)
    (actionName : string) (w : World) :
  error r = Some e ->
  promise call = Pending ->
  (promise (getMediaCallback (Some r) call) = Rejected (ThrownSdkError e)
   /\ forall later,
        promise (feedCallback later (getMediaCallback (Some r) call))
        = Rejected (ThrownSdkError e))
  /\ (exists call' w',
        getMediaHandler actionName (JsonValue (Some r)) call w = Returns call' w'
        /\ promise call' = Rejected (ThrownSdkError e)
        /\ forall later,
             promise (fst (deliverAll actionName later (call', w')))
             = Rejected (ThrownSdkError e)).
Proof.
  intros E P.
  assert (R : promise (settle (reject (ThrownSdkError e)) call)
              = Rejected (ThrownSdkError e)) by (cbn; by rewrite P).
  split.
  - rewrite (getMediaCallback_error r e call E). split; [exact R|].
    intros later. rewrite feedCallback_settled; rewrite R; done.
  - eexists _, _. split; [apply (getMediaHandler_error _ r e call w E)|].
    split; [exact R|].
    intros later. rewrite deliverAll_settled; cbn; rewrite P; done.
Qed.

Lemma getMedia_host_error_rejects_witness :
  error Sample.errorEnvelope = Some Sample.hostError
  /\ promise Sample.callInProgress = Pending
  /\ promise (getMediaCallback (assembly := Sample.assembly) (Some Sample.errorEnvelope)
                Sample.callInProgress)
     = Rejected (ThrownSdkError Sample.hostError).
Proof.
  split; [reflexivity|]. split; [reflexivity|].
  apply (getMedia_host_error_rejects (assembly := Sample.assembly) Sample.errorEnvelope
           Sample.hostError Sample.callInProgress "guid"
           (Sample.world "content" false "web" "1.9.0")); reflexivity.
Defined.

(** C10. In both delivery strategies the host-error test comes before
    the null-data test: an envelope that carries an error and no chunk
    rejects the pending promise with the host's error, not with the
    internal [data receieved is null] error. *)
Theorem getMedia_host_error_before_null_data {assembly : MediaAssembly}
    (r : MediaResult) (e : SdkError) (call : GetMediaCall)
    (actionName : string) (w : World) :
  error r = Some e ->
  mediaChunk r = None ->
  promise call = Pending ->
  promise (getMediaCallback (Some r) call) = Rejected (ThrownSdkError e)
  /\ (exists call' w',
        getMediaHandler actionName (JsonValue (Some r)) call w = Returns call' w'
        /\ promise call' = Rejected (ThrownSdkError e))
  /\ (ThrownSdkError e <> dataReceivedIsNull ->
      promise (getMediaCallback (Some r) call) <> Rejected dataReceivedIsNull
      /\ forall call' w',
           getMediaHandler actionName (JsonValue (Some r)) call w = Returns call' w' ->
           promise call' <> Rejected dataReceivedIsNull).
Proof.
  intros E _ P.
  rewrite (getMediaCallback_error r e call E), (getMediaHandler_error _ r e call w E).
  cbn. rewrite P. cbn. split; [done|]. split.
  - eexists _, _. split; [done|]. cbn. by rewrite P.
  - intros Hne. split; [congruence|].
    intros call' w' [= <- _]. cbn. rewrite P. cbn. congruence.
Qed.

Lemma getMedia_host_error_before_null_data_witness :
  error Sample.errorEnvelope = Some Sample.hostError
  /\ mediaChunk Sample.errorEnvelope = None
  /\ promise Sample.callInProgress = Pending
  /\ promise (getMediaCallback (assembly := Sample.assembly) (Some Sample.errorEnvelope)
                Sample.callInProgress)
     = Rejected (ThrownSdkError Sample.hostError).
Proof.
  split; [reflexivity|]. split; [reflexivity|]. split; [reflexivity|].
  apply (getMedia_host_error_before_null_data (assembly := Sample.assembly)
           Sample.errorEnvelope Sample.hostError Sample.callInProgress "guid"
           (Sample.world "content" false "web" "1.9.0")); reflexivity.
Defined.

(** ** Null data *)

Lemma getMediaCallback_null {assembly : MediaAssembly} (call : GetMediaCall) :
  promise call = Pending ->
  promise (getMediaCallback None call) = Rejected dataReceivedIsNull.
Proof. intros P. cbn. by rewrite P. Qed.

Lemma getMedia_null_chunk_internal_error {assembly : MediaAssembly}
    (r : MediaResult) (call : GetMediaCall) (actionName : string) (w : World) :
  error r = None -> mediaChunk r = None -> promise call = Pending ->
  promise (getMediaCallback (Some r) call) = Rejected dataReceivedIsNull
  /\ exists call',
       getMediaHandler actionName (JsonValue (Some r)) call w
       = Returns call' (removeHandler ("getMedia" +:+ actionName) w)
       /\ promise call' = Rejected dataReceivedIsNull.
Proof.
  intros E C P.
  rewrite (getMediaCallback_null_chunk r call E C),
          (getMediaHandler_null_chunk _ r call w E C).
  cbn. rewrite P. split; [done|]. eexists. split; [done|]. cbn. by rewrite P.
Qed.

Lemma getMediaViaHandler_start {assembly : MediaAssembly}
    (this : Media) (actionName : string) (w : World) :
  exists w0,
    getMediaViaHandler this actionName w
    = Returns (mkGetMediaCall Pending (mkMediaHelper (mimeType this) [])) w0
    /\ handlers w0 = <["getMedia" +:+ actionName := GetMediaHandler actionName]> (handlers w).
Proof.
  unfold getMediaViaHandler, registerHandler.
  destruct (String.eqb (content this) EmptyString); cbn;
    eexists; (split; [reflexivity|]);
    by rewrite !handlers_sendMessageToParent.
Qed.

(** C4, at the input where the code departs from it. When the parsed
    response of the named handler is [null], reading [mediaResult.error]
    throws: the handler leaves with a [TypeError], so the event changes
    nothing, the promise of the call stays pending and the handler stays
    registered, whereas the callback strategy rejects with the internal
    error on the same input. *)
Theorem getMediaHandler_null_result_throws {assembly : MediaAssembly}
    (this : Media) (actionName : string) (w : World) :
  let name := "getMedia" +:+ actionName in
  exists call0 w0,
    getMediaViaHandler this actionName w = Returns call0 w0
    /\ getMediaHandler actionName (JsonValue None) call0 w0 = Throws ThrownTypeError w0
    /\ deliver actionName (name, JsonValue None) (call0, w0) = (call0, w0)
    /\ promise call0 = Pending
    /\ handlers w0 !! name = Some (GetMediaHandler actionName)
    /\ promise (getMediaCallback None call0) = Rejected dataReceivedIsNull.
Proof.
  intros name.
  destruct (getMediaViaHandler_start this actionName w) as (w0 & E & Hh).
  eexists _, w0. split; [exact E|].
  assert (L : handlers w0 !! name = Some (GetMediaHandler actionName))
    by (rewrite Hh; apply lookup_insert_eq).
  split; [reflexivity|]. split; [|done].
  unfold deliver, callHandler. cbn. fold name. rewrite L.
  by rewrite String.eqb_refl.
Qed.

(** ** The terminal chunk *)

(** C9. In both delivery strategies a chunk whose sequence number is
    positive is decoded and appended to the buffer and settles nothing,
    while a chunk whose sequence number is zero or negative is neither
    decoded nor appended: the pending promise resolves with [createFile]
    of the attachments accumulated before, whatever payload the terminal
    envelope carries. *)
Theorem getMedia_terminal_chunk_payload_ignored {assembly : MediaAssembly}
    (call : GetMediaCall) (actionName : string) (w : World) (c : MediaChunk) :
  promise call = Pending ->
  let file := createFile (assembleAttachment (helper call)) (mediaMimeType (helper call)) in
  let name := "getMedia" +:+ actionName in
  (0 < chunkSequence c ->
     getMediaCallback (Some (chunkEnvelope c)) call
     = mkGetMediaCall Pending
         (mkMediaHelper (mediaMimeType (helper call))
            (assembleAttachment (helper call)
             ++ [decodeAttachment c (mediaMimeType (helper call))]))
     /\ getMediaHandler actionName (JsonValue (Some (chunkEnvelope c))) call w
        = Returns (getMediaCallback (Some (chunkEnvelope c)) call) w)
  /\ (chunkSequence c <= 0 ->
     getMediaCallback (Some (chunkEnvelope c)) call
     = mkGetMediaCall (Fulfilled file) (helper call)
     /\ getMediaHandler actionName (JsonValue (Some (chunkEnvelope c))) call w
        = Returns (mkGetMediaCall (Fulfilled file) (helper call)) (removeHandler name w)
     /\ forall payload,
          getMediaCallback (Some (chunkEnvelope (mkMediaChunk payload (chunkSequence c)))) call
          = getMediaCallback (Some (chunkEnvelope c)) call
          /\ getMediaHandler actionName
               (JsonValue (Some (chunkEnvelope (mkMediaChunk payload (chunkSequence c))))) call w
             = getMediaHandler actionName (JsonValue (Some (chunkEnvelope c))) call w).
Proof.
  intros P file name. split.
  - intros L. rewrite (getMediaCallback_data c call L), (getMediaHandler_data _ c call w L).
    unfold push. by rewrite P.
  - intros L. split; [|split].
    + rewrite (getMediaCallback_terminal c call L). unfold settle. by rewrite P.
    + rewrite (getMediaHandler_terminal _ c call w L). unfold settle. by rewrite P.
    + intros payload.
      assert (L' : chunkSequence (mkMediaChunk payload (chunkSequence c)) <= 0) by exact L.
      by rewrite (getMediaCallback_terminal _ call L'), (getMediaCallback_terminal c call L),
                 (getMediaHandler_terminal _ _ call w L'), (getMediaHandler_terminal _ c call w L).
Qed.

Lemma getMedia_terminal_chunk_payload_ignored_witness :
  promise Sample.callInProgress = Pending
  /\ (mkMediaChunk "BAUG" 0).(chunkSequence) <= 0
  /\ getMediaCallback (assembly := Sample.assembly)
       (Some (chunkEnvelope (mkMediaChunk "BAUG" 0))) Sample.callInProgress
     = mkGetMediaCall
         (Fulfilled (mkBlob [Byte.x01; Byte.x02; Byte.x03] "image/jpeg"))
         (helper Sample.callInProgress).
Proof.
  split; [reflexivity|]. split; [cbn; lia|].
  apply (getMedia_terminal_chunk_payload_ignored (assembly := Sample.assembly)
           Sample.callInProgress "guid" (Sample.world "content" false "web" "1.9.0")
           (mkMediaChunk "BAUG" 0)); [reflexivity | cbn; lia].
Defined.

(** ** The named handler is removed when the call settles *)

Lemma deliver_handlers_step {assembly : MediaAssembly}
    (a : string) (event : string * JsonParse) (s : GetMediaCall * World) :
  let name := "getMedia" +:+ a in
  let s' := deliver a event s in
  (promise (fst s') = promise (fst s) /\ handlers (snd s') = handlers (snd s))
  \/ (settled (promise (fst s')) = true
      /\ handlers (snd s') = delete name (handlers (snd s))).
Proof.
  intros name s'. subst s'. unfold deliver, callHandler.
  destruct (handlers (snd s) !! fst event) as [[b| | |]|]; try (left; done).
  destruct (String.eqb b a); [|left; done].
  unfold getMediaHandler.
  destruct (snd event) as [|[r|]]; try (left; done).
  destruct (error r); [right; run_exec; by destruct (promise (fst s))|].
  destruct (mediaChunk r) as [c|]; [|right; run_exec; by destruct (promise (fst s))].
  destruct (chunkSequence c <=? 0); [right; run_exec; by destruct (promise (fst s))|].
  left; done.
Qed.

Lemma deliverAll_handlers {assembly : MediaAssembly}
    (a : string) (events : list (string * JsonParse)) (s : GetMediaCall * World) :
  let name := "getMedia" +:+ a in
  let s' := deliverAll a events s in
  (promise (fst s') = promise (fst s) /\ handlers (snd s') = handlers (snd s))
  \/ (settled (promise (fst s')) = true
      /\ handlers (snd s') = delete name (handlers (snd s))).
Proof.
  intros name. revert s. induction events as [|e es IH]; intros s; [left; done|].
  change (deliverAll a (e :: es) s) with (deliverAll a es (deliver a e s)).
  cbv zeta in *.
  destruct (deliver_handlers_step a e s) as [[P1 H1]|[S1 H1]];
    destruct (IH (deliver a e s)) as [[P2 H2]|[S2 H2]].
  - left. split; congruence.
  - right. split; [done|]. by rewrite H2, H1.
  - right. split; [by rewrite P2|]. by rewrite H2, H1.
  - right. split; [done|]. rewrite H2, H1. fold name.
    apply map_eq. intros i.
    destruct (decide (name = i)) as [->|Hne].
    + by rewrite !lookup_delete_eq.
    + by rewrite !lookup_delete_ne.
Qed.

(** C5. A call of [getMediaViaHandler] registers its handler under
    ['getMedia' + actionName]. Whatever events follow, once the promise of
    the call has settled the registry is the one the call found, without
    that name: nothing is leaked and no other entry is touched. Each of
    the three settling paths of the handler, host error, null chunk and
    terminal chunk, removes the name as it settles. *)
Theorem getMediaViaHandler_removes_handler {assembly : MediaAssembly}
    (this : Media) (actionName : string) (w : World) :
  let name := "getMedia" +:+ actionName in
  exists call0 w0,
    getMediaViaHandler this actionName w = Returns call0 w0
    /\ promise call0 = Pending
    /\ handlers w0 !! name = Some (GetMediaHandler actionName)
    /\ (forall events,
          let s := deliverAll actionName events (call0, w0) in
          handlers (snd s)
          = if settled (promise (fst s)) then delete name (handlers w)
            else handlers w0)
    /\ (forall call w' e chunk,
          getMediaHandler actionName (JsonValue (Some (mkMediaResult (Some e) chunk))) call w'
          = Returns (settle (reject (ThrownSdkError e)) call) (removeHandler name w'))
    /\ (forall call w',
          getMediaHandler actionName (JsonValue (Some (mkMediaResult None None))) call w'
          = Returns (settle (reject dataReceivedIsNull) call) (removeHandler name w'))
    /\ (forall call w' c,
          getMediaHandler actionName (JsonValue (Some (chunkEnvelope c))) call w'
          = if chunkSequence c <=? 0
            then Returns (settle (resolve (createFile (assembleAttachment (helper call))
                                                      (mediaMimeType (helper call)))) call)
                         (removeHandler name w')
            else Returns (push (decodeAttachment c (mediaMimeType (helper call))) call) w')
    /\ (forall w', handlers (removeHandler name w') !! name = None).
Proof.
  intros name.
  destruct (getMediaViaHandler_start this actionName w) as (w0 & E & Hh).
  eexists _, w0. split; [exact E|]. split; [done|].
  split; [rewrite Hh; apply lookup_insert_eq|].
  split; [|split; [done|split; [done|split]]].
  - intros events s.
    destruct (deliverAll_handlers actionName events
                (mkGetMediaCall Pending (mkMediaHelper (mimeType this) []), w0))
      as [[P1 H1]|[S1 H1]]; cbv zeta in *; cbn [fst snd] in *; subst s.
    + rewrite P1, H1. done.
    + rewrite S1, H1, Hh. fold name. by rewrite delete_insert_eq.
  - intros call w' c. unfold getMediaHandler; cbn.
    by destruct (chunkSequence c <=? 0).
  - intros w'. rewrite handlers_removeHandler. apply lookup_delete_eq.
Qed.

(** ** Reassembly of a whole stream *)

Lemma accumulate_nil {assembly : MediaAssembly} (call : GetMediaCall) :
  accumulate [] call = call.
Proof.
  destruct call as [p [m l]]. unfold accumulate; cbn. by rewrite app_nil_r.
Qed.

Lemma accumulate_cons {assembly : MediaAssembly} c chunks (call : GetMediaCall) :
  accumulate chunks (push (decodeAttachment c (mediaMimeType (helper call))) call)
  = accumulate (c :: chunks) call.
Proof. unfold accumulate, push; cbn. by rewrite <- app_assoc. Qed.

Lemma feedCallback_app {assembly : MediaAssembly} l1 l2 (call : GetMediaCall) :
  feedCallback (l1 ++ l2) call = feedCallback l2 (feedCallback l1 call).
Proof. apply fold_left_app. Qed.

Lemma deliverAll_app {assembly : MediaAssembly} a l1 l2 (s : GetMediaCall * World) :
  deliverAll a (l1 ++ l2) s = deliverAll a l2 (deliverAll a l1 s).
Proof. apply fold_left_app. Qed.

Lemma feedCallback_data {assembly : MediaAssembly} chunks (call : GetMediaCall) :
  Forall (fun c => 0 < chunkSequence c) chunks ->
  feedCallback (responsesOf chunks) call = accumulate chunks call.
Proof.
  intros F. revert call. induction F as [|c cs L F IH]; intros call.
  - by rewrite accumulate_nil.
  - change (feedCallback (responsesOf (c :: cs)) call)
      with (feedCallback (responsesOf cs) (getMediaCallback (Some (chunkEnvelope c)) call)).
    by rewrite (getMediaCallback_data c call L), IH, accumulate_cons.
Qed.

Lemma deliverAll_data {assembly : MediaAssembly} a chunks (call : GetMediaCall) (w : World) :
  handlers w !! ("getMedia" +:+ a) = Some (GetMediaHandler a) ->
  Forall (fun c => 0 < chunkSequence c) chunks ->
  deliverAll a (eventsOf a chunks) (call, w) = (accumulate chunks call, w).
Proof.
  intros Hh F. revert call. induction F as [|c cs L F IH]; intros call.
  - by rewrite accumulate_nil.
  - change (deliverAll a (eventsOf a (c :: cs)) (call, w))
      with (deliverAll a (eventsOf a cs)
              (deliver a ("getMedia" +:+ a, JsonValue (Some (chunkEnvelope c))) (call, w))).
    unfold deliver at 1, callHandler. cbn [fst snd]. rewrite Hh, String.eqb_refl.
    by rewrite (getMediaHandler_data a c call w L), IH, accumulate_cons.
Qed.

Lemma createFile_decoded (decode : string -> list Byte.byte) chunks mime :
  mediaUtil.createFile
    (map (fun c => mediaUtil.decodeAttachment decode c mime) chunks) mime
  = mkBlob (concat (map (fun c => decode (chunk c)) chunks)) mime.
Proof. unfold mediaUtil.createFile. by rewrite map_map. Qed.

(** C1, as amended. With [createFile] and [decodeAttachment] as the
    specification describes them, in both delivery strategies of
    [getMedia]: while chunks with a positive sequence number arrive the
    promise stays pending, and when the chunk with a sequence number zero
    or negative arrives the promise resolves with the blob that
    concatenates, in arrival order, the decoded payloads of the chunks
    received before it; the payload of the terminal chunk is not part of
    the blob. For the sequence numbers 3, 2, 1, 0 the blob is the payloads
    of 3, 2 and 1, in that order, delivered on chunk 0. *)
Theorem getMedia_reassembles_in_arrival_order
    (decode : string -> list Byte.byte)
    (this : Media) (actionName : string) (w : World)
    (chunks : list MediaChunk) (last : MediaChunk) :
  Forall (fun c => 0 < chunkSequence c) chunks ->
  chunkSequence last <= 0 ->
  let assembly := mediaUtil.assembly decode in
  let blob := mkBlob (concat (map (fun c => decode (chunk c)) chunks)) (mimeType this) in
  (exists call0 w0,
     getMediaViaCallback this w = Returns call0 w0
     /\ promise (feedCallback (responsesOf chunks) call0) = Pending
     /\ promise (feedCallback (responsesOf (chunks ++ [last])) call0) = Fulfilled blob)
  /\ (exists call0 w0,
     getMediaViaHandler this actionName w = Returns call0 w0
     /\ promise (fst (deliverAll actionName (eventsOf actionName chunks) (call0, w0)))
        = Pending
     /\ promise (fst (deliverAll actionName (eventsOf actionName (chunks ++ [last]))
                        (call0, w0)))
        = Fulfilled blob).
Proof.
  intros F L assembly blob. split.
  - eexists _, _. split; [reflexivity|].
    unfold responsesOf. rewrite map_app, feedCallback_app. fold (responsesOf chunks).
    rewrite (feedCallback_data chunks _ F). split; [done|].
    cbn [map feedCallback fold_left].
    rewrite (getMediaCallback_terminal last _ L). cbn.
    by rewrite createFile_decoded.
  - destruct (getMediaViaHandler_start (assembly := assembly) this actionName w)
      as (w0 & E & Hh).
    assert (Hl : handlers w0 !! ("getMedia" +:+ actionName)
                 = Some (GetMediaHandler actionName))
      by (rewrite Hh; apply lookup_insert_eq).
    eexists _, w0. split; [exact E|].
    unfold eventsOf. rewrite map_app, deliverAll_app. fold (eventsOf actionName chunks).
    rewrite (deliverAll_data actionName chunks _ w0 Hl F). split; [done|].
    cbn [map deliverAll fold_left].
    unfold deliver, callHandler. cbn [fst snd]. rewrite Hl, String.eqb_refl.
    rewrite (getMediaHandler_terminal actionName last _ w0 L). cbn.
    by rewrite createFile_decoded.
Qed.

Lemma getMedia_reassembles_in_arrival_order_witness :
  Forall (fun c => 0 < chunkSequence c) Sample.chunks321
  /\ chunkSequence Sample.chunk0 <= 0
  /\ exists call0 w0,
       getMediaViaCallback Sample.image (Sample.world "content" false "android" "2.0.0")
       = Returns call0 w0
       /\ promise (feedCallback (assembly := Sample.assembly)
                     (responsesOf Sample.chunks321) call0) = Pending
       /\ promise (feedCallback (assembly := Sample.assembly)
                     (responsesOf (Sample.chunks321 ++ [Sample.chunk0])) call0)
          = Fulfilled (mkBlob (concat (map (fun c => mediaUtil.atob (chunk c))
                                          Sample.chunks321)) "image/jpeg").
Proof.
  assert (F : Forall (fun c => 0 < chunkSequence c) Sample.chunks321)
    by (repeat constructor).
  assert (L : chunkSequence Sample.chunk0 <= 0) by (cbn; lia).
  split; [exact F|]. split; [exact L|].
  apply (getMedia_reassembles_in_arrival_order mediaUtil.atob Sample.image "guid"
           (Sample.world "content" false "android" "2.0.0")
           Sample.chunks321 Sample.chunk0 F L).
Defined.

(** The stream 3, 2, 1, 0 of the specification, run with an empty
    terminal chunk: eight bytes in arrival order, delivered on chunk 0, by
    either strategy. *)
Example reassembly_3_2_1_0_callback :
  promise (feedCallback (assembly := Sample.assembly)
             (responsesOf (Sample.chunks321 ++ [Sample.chunk0]))
             (mkGetMediaCall Pending (mkMediaHelper "image/jpeg" [])))
  = Fulfilled (mkBlob [Byte.x01; Byte.x02; Byte.x03; Byte.x04; Byte.x05; Byte.x06;
                       Byte.x07; Byte.x08] "image/jpeg").
Proof. reflexivity. Qed.

Example reassembly_3_2_1_0_handler :
  promise (fst (deliverAll (assembly := Sample.assembly) "guid"
                  (eventsOf "guid" (Sample.chunks321 ++ [Sample.chunk0]))
                  (mkGetMediaCall Pending (mkMediaHelper "image/jpeg" []),
                   registerHandler "getMediaguid" (GetMediaHandler "guid")
                     (Sample.world "content" false "android" "1.9.0"))))
  = Fulfilled (mkBlob [Byte.x01; Byte.x02; Byte.x03; Byte.x04; Byte.x05; Byte.x06;
                       Byte.x07; Byte.x08] "image/jpeg").
Proof. vm_compute. reflexivity. Qed.

(** C1, as worded: the blob does not hold the payloads of all the chunks
    received. When chunk 0 of the stream 3, 2, 1, 0 carries a byte of its
    own, both strategies still deliver the eight bytes of chunks 3, 2 and
    1, not the nine bytes received. *)
Lemma getMedia_terminal_payload_not_in_blob :
  let received := Sample.chunks321 ++ [mkMediaChunk "CQ==" 0] in
  let call0 := mkGetMediaCall Pending (mkMediaHelper "image/jpeg" []) in
  let w0 := registerHandler "getMediaguid" (GetMediaHandler "guid")
              (Sample.world "content" false "android" "1.9.0") in
  let allPayloads :=
    mkBlob (concat (map (fun c => mediaUtil.atob (chunk c)) received)) "image/jpeg" in
  let delivered :=
    mkBlob [Byte.x01; Byte.x02; Byte.x03; Byte.x04; Byte.x05; Byte.x06;
            Byte.x07; Byte.x08] "image/jpeg" in
  promise (feedCallback (assembly := Sample.assembly) (responsesOf received) call0)
  = Fulfilled delivered
  /\ promise (fst (deliverAll (assembly := Sample.assembly) "guid"
                     (eventsOf "guid" received) (call0, w0)))
     = Fulfilled delivered
  /\ blobParts allPayloads = blobParts delivered ++ [Byte.x09]
  /\ promise (feedCallback (assembly := Sample.assembly) (responsesOf received) call0)
     <> Fulfilled allPayloads
  /\ promise (fst (deliverAll (assembly := Sample.assembly) "guid"
                     (eventsOf "guid" received) (call0, w0)))
     <> Fulfilled allPayloads.
Proof.
  intros received call0 w0 allPayloads delivered.
  split_and!; try (vm_compute; reflexivity);
    intros E; vm_compute in E; discriminate E.
Qed.

(* ===================================================================== *)
(** * Properties of the capability gates *)
(* ===================================================================== *)

Lemma existsb_eqb_elem (x : string) (l : list string) :
  existsb (String.eqb x) l = bool_decide (x ∈ l).
Proof.
  induction l as [|y l IH]; cbn.
  - symmetry. apply bool_decide_eq_false, not_elem_of_nil.
  - rewrite IH. destruct (String.eqb_spec x y) as [->|Hne]; cbn.
    + symmetry. apply bool_decide_eq_true. by left.
    + apply bool_decide_ext. rewrite elem_of_cons. tauto.
Qed.

Lemma ensureInitialized_allowed expected w :
  frameContext (globalVars w) ∈ expected ->
  ensureInitialized expected w = Returns tt w.
Proof.
  intros Hin. unfold ensureInitialized. run_exec.
  rewrite existsb_eqb_elem. by rewrite bool_decide_eq_true_2.
Qed.

Lemma ensureInitialized_wrong_context expected w :
  frameContext (globalVars w) ∉ expected ->
  ensureInitialized expected w
  = Throws (ThrownError (wrongContextMessage expected (frameContext (globalVars w)))) w.
Proof.
  intros Hin. unfold ensureInitialized. run_exec.
  rewrite existsb_eqb_elem. by rewrite bool_decide_eq_false_2.
Qed.

Section Gates.
Context {constants : InternalConstants} {internalAPIs : InternalAPIs}
  {validators : MediaValidators}.

Lemma ensureInitialized_gate w :
  ensureInitialized [FrameContexts.content; FrameContexts.task] w
  = if inAllowedContext (globalVars w) then Returns tt w
    else Throws (ThrownError (wrongContextMessage allowedContexts
                                (frameContext (globalVars w)))) w.
Proof.
  unfold inAllowedContext, allowedContexts. case_bool_decide.
  - by apply ensureInitialized_allowed.
  - by apply ensureInitialized_wrong_context.
Qed.

Lemma mobileHost_eqb g :
  negb (String.eqb (hostClientType g) HostClientType.android)
  && negb (String.eqb (hostClientType g) HostClientType.ios)
  = negb (mobileHost g).
Proof.
  unfold mobileHost.
  destruct (String.eqb_spec (hostClientType g) HostClientType.android) as [E|N1];
    destruct (String.eqb_spec (hostClientType g) HostClientType.ios) as [E'|N2]; cbn;
    symmetry; rewrite ?negb_true_iff, ?negb_false_iff;
    try (apply bool_decide_eq_true; tauto).
  apply bool_decide_eq_false. tauto.
Qed.

Lemma scanBarCode_hosts_eqb g :
  String.eqb (hostClientType g) HostClientType.desktop
  || String.eqb (hostClientType g) HostClientType.web
  || String.eqb (hostClientType g) HostClientType.rigel
  || String.eqb (hostClientType g) HostClientType.teamsRoomsWindows
  || String.eqb (hostClientType g) HostClientType.teamsRoomsAndroid
  || String.eqb (hostClientType g) HostClientType.teamsPhones
  || String.eqb (hostClientType g) HostClientType.teamsDisplays
  = negb (bool_decide (hostClientType g ∉ scanBarCodeUnsupportedHosts)).
Proof.
  rewrite bool_decide_not, negb_involutive, <- existsb_eqb_elem.
  cbn. by rewrite orb_false_r, !orb_assoc.
Qed.

Lemma length_transportSends_grows f args w :
  (length (transportSends w) < length (transportSends (sendMessageToParent f args w)))%nat.
Proof. rewrite length_transportSends_sendMessageToParent. lia. Qed.

Lemma length_transportSends_registerHandler name h w :
  length (transportSends (registerHandler name h w)) = S (length (transportSends w)).
Proof. unfold registerHandler. by rewrite length_transportSends_sendMessageToParent. Qed.

Ltac gate_done :=
  cbn; rewrite ?andb_false_r; cbn;
  first
    [ done
    | split_and!;
      first [ done
            | apply length_transportSends_grows
            | by left
            | by (right; left)
            | by (right; right) ] ].

(** How each operation answers its caller conditions: it throws,
    leaving the world untouched, exactly when one of them fails. *)
Lemma invoke_callerGates (op : Operation) (w : World) :
  let gates := callerGates op (globalVars w) in
  match invoke op w with
  | Throws t w' =>
      w' = w /\ allPass gates = false /\ blames (globalVars w) gates t
  | Returns p w' =>
      allPass gates = true /\ p = Pending
      /\ (length (transportSends w) < length (transportSends w'))%nat
  end.
Proof.
  destruct op as [|this a|mediaInputs|uriList|config];
    unfold invoke, captureImage, getMedia, selectMedia, viewImages, scanBarCode,
           getMediaViaCallback, getMediaViaHandler, supported,
           sendAndHandleSdkError, sendMessageToParentAsync;
    unfold mbind at 1, Exec_bind at 1; unfold mbind at 1, Exec_bind at 1;
    rewrite ensureInitialized_gate;
    unfold allPass, blames, callerGates;
    cbn [contextAllowed platformSupported versionSupported argumentsValid];
    (destruct (inAllowedContext (globalVars w)) eqn:C; [|done]);
    run_exec.
  - destruct (isFramelessWindow (globalVars w)); cbn; [|gate_done].
    destruct (isAPISupportedByPlatform _ _); gate_done.
  - destruct (isAPISupportedByPlatform mediaAPISupportVersion _); cbn; [|gate_done].
    destruct (validateGetMediaInputs _ _ _); cbn; [|gate_done].
    destruct (isAPISupportedByPlatform getMediaCallbackSupportVersion _); cbn;
      [gate_done|].
    destruct (String.eqb _ _); cbn; (split_and!; [done..|]);
      rewrite length_transportSends_registerHandler,
              ?length_transportSends_sendMessageToParent; lia.
  - destruct (isMediaCallForVideoAndImageInputs mediaInputs);
      (destruct (isAPISupportedByPlatform mediaAPISupportVersion _); cbn; [|gate_done]).
    + rewrite mobileHost_eqb.
      destruct (mobileHost (globalVars w)); cbn; [|gate_done].
      destruct (isAPISupportedByPlatform videoAndImageMediaAPISupportVersion _);
        cbn; [|gate_done].
      destruct (validateSelectMediaInputs mediaInputs); gate_done.
    + destruct (validateSelectMediaInputs mediaInputs); gate_done.
  - destruct (isAPISupportedByPlatform mediaAPISupportVersion _); cbn; [|gate_done].
    destruct (validateViewImagesInput uriList); gate_done.
  - rewrite scanBarCode_hosts_eqb.
    destruct (bool_decide _); cbn; [|gate_done].
    destruct (isAPISupportedByPlatform _ _); cbn; [|gate_done].
    destruct (validateScanBarCodeInput config); gate_done.
Qed.

(** C8, as amended. For each of [captureImage], [getMedia],
    [selectMedia], [viewImages] and [scanBarCode]: when one of the caller
    conditions fails the executor throws, so the returned promise is
    rejected, and the world is left untouched, no envelope reaches either
    transport. The rejection is the [Error] of [ensureInitialized] when
    the frame context is not an allowed one, and otherwise the [SdkError]
    [NOT_SUPPORTED_ON_PLATFORM], [OLD_PLATFORM] or [INVALID_ARGUMENTS] of a
    condition that failed. When every condition holds the promise is
    pending and something was sent. *)
Theorem media_caller_errors_reject_before_send (op : Operation) (w : World) :
  let gates := callerGates op (globalVars w) in
  match invoke op w with
  | Throws t w' =>
      returnedPromise (invoke op w) = Rejected t
      /\ w' = w /\ allPass gates = false /\ blames (globalVars w) gates t
  | Returns p w' =>
      returnedPromise (invoke op w) = Pending
      /\ allPass gates = true
      /\ (length (transportSends w) < length (transportSends w'))%nat
  end.
Proof.
  intros gates. pose proof (invoke_callerGates op w) as G.
  cbv zeta in G. fold gates in G.
  destruct (invoke op w) as [p w'|t w']; cbn.
  - destruct G as (Hpass & -> & Hsent). done.
  - destruct G as (-> & Hfail & Hblame). done.
Qed.
End Gates.

(** C8, as worded: a caller error in a wrong frame context is not
    answered by an [SdkError]. [captureImage] called from the side panel
    of a mobile host rejects with the [Error] of [ensureInitialized]. *)
Lemma media_wrong_context_is_not_sdk_error :
  let w := Sample.world FrameContexts.sidePanel true HostClientType.android "2.0.0" in
  let invoked := invoke (constants := Sample.constants) (internalAPIs := Sample.internalAPIs)
                   (validators := Sample.validators) CaptureImage w in
  allPass (callerGates (constants := Sample.constants) (internalAPIs := Sample.internalAPIs)
             (validators := Sample.validators) CaptureImage (globalVars w)) = false
  /\ returnedPromise invoked
     = Rejected (ThrownError (wrongContextMessage allowedContexts FrameContexts.sidePanel))
  /\ forall code, returnedPromise invoked <> Rejected (sdkError code).
Proof.
  intros w invoked. split; [by vm_compute|]. split; [by vm_compute|].
  intros code E. vm_compute in E. discriminate E.
Qed.

(* ===================================================================== *)
(** * Properties of the video frame pipeline *)
(* ===================================================================== *)

(** C7. From every frame context other than [sidePanel],
    [registerForVideoFrame], [registerForVideoEffect] and
    [notifySelectedVideoEffectChanged] throw the context error of
    [ensureInitialized] and leave the world as it was: no handler is
    registered and the transports, framed or frameless, have received
    nothing more; a send count of zero stays zero. *)
Theorem video_wrong_context_throws_before_send
    (w : World) (frameCallback : VideoFrameCallback)
    (config effectChangeType effectId : JsValue) :
  frameContext (globalVars w) <> FrameContexts.sidePanel ->
  let callerError :=
    ThrownError (wrongContextMessage [FrameContexts.sidePanel]
                   (frameContext (globalVars w))) in
  video.registerForVideoFrame frameCallback config w = Throws callerError w
  /\ video.registerForVideoEffect w = Throws callerError w
  /\ video.notifySelectedVideoEffectChanged effectChangeType effectId w
     = Throws callerError w
  /\ (transportSends w = [] ->
      transportSends (worldOf (video.registerForVideoFrame frameCallback config w)) = []
      /\ transportSends (worldOf (video.registerForVideoEffect w)) = []
      /\ transportSends
           (worldOf (video.notifySelectedVideoEffectChanged effectChangeType effectId w))
         = []).
Proof.
  intros Hctx callerError.
  assert (E : ensureInitialized [FrameContexts.sidePanel] w = Throws callerError w).
  { apply ensureInitialized_wrong_context. by intros Hin%list_elem_of_singleton. }
  unfold video.registerForVideoFrame, video.registerForVideoEffect,
         video.notifySelectedVideoEffectChanged.
  unfold mbind at 1 3 4, Exec_bind at 1 3 4.
  rewrite E. split_and!; try done.
  intros Z. unfold mbind, Exec_bind. rewrite E. cbn. done.
Qed.

Lemma video_wrong_context_throws_before_send_witness :
  let w := Sample.world FrameContexts.content true HostClientType.android "2.0.0" in
  frameContext (globalVars w) <> FrameContexts.sidePanel
  /\ video.registerForVideoFrame Sample.videoEffectCallback JsNull w
     = Throws (ThrownError (wrongContextMessage [FrameContexts.sidePanel]
                              FrameContexts.content)) w.
Proof.
  intros w.
  assert (Hctx : frameContext (globalVars w) <> FrameContexts.sidePanel)
    by (vm_compute; discriminate).
  split; [exact Hctx|].
  apply (video_wrong_context_throws_before_send w Sample.videoEffectCallback
           JsNull JsNull JsNull Hctx).
Defined.

Lemma invocations_sendMessageToParent f args w :
  invocations (sendMessageToParent f args w) = invocations w.
Proof. unfold sendMessageToParent. by destruct (isFramelessWindow _). Qed.

Lemma invocations_complete_all l v :
  invocations (fold_left (fun w c => video.complete c w) l v) = invocations v.
Proof.
  revert v. induction l as [|c l IH]; intros v; [done|].
  cbn. rewrite IH. destruct c; apply invocations_sendMessageToParent.
Qed.

Lemma callHandler_newVideoFrame w frameCallback args :
  handlers w !! "video.newVideoFrame" = Some (NewVideoFrameHandler frameCallback) ->
  video.callHandler "video.newVideoFrame" args w
  = video.newVideoFrameHandler frameCallback (nth 0 args JsUndefined) w.
Proof. intros Hh. unfold video.callHandler. by rewrite Hh. Qed.

Lemma newVideoFrameHandler_delivers frameCallback frame w :
  frame <> JsUndefined ->
  video.newVideoFrameHandler frameCallback frame w
  = fold_left (fun w c => video.complete c w) (frameCallback frame)
              (logInvocation (FrameCallbackInvoked frame) w).
Proof. intros Hf. by destruct frame. Qed.

(** C6. A frame other than [undefined], pushed to a registered
    callback, is handed to it once. If the callback calls the acknowledge
    function, exactly one envelope is sent, ['video.videoFrameProcessed']
    with no argument; if it calls the fail function with a message,
    exactly one envelope is sent, ['video.notifyError'] whose only argument
    is that message. The envelope goes to the transport of the topology in
    use, framed or frameless alike. *)
Theorem video_frame_completion_sends_one_event
    (w : World) (frameCallback : VideoFrameCallback) (frame : JsValue) :
  handlers w !! "video.newVideoFrame" = Some (NewVideoFrameHandler frameCallback) ->
  frame <> JsUndefined ->
  let w' := video.callHandler "video.newVideoFrame" [frame] w in
  invocations w' = invocations w ++ [FrameCallbackInvoked frame]
  /\ (frameCallback frame = [NotifyVideoFrameProcessed] ->
      outbound w'
      = outbound w ++ [mkMessageRequest (nextMessageId w) "video.videoFrameProcessed" []]
      /\ length (transportSends w') = S (length (transportSends w)))
  /\ (forall errorMessage, frameCallback frame = [NotifyError errorMessage] ->
      outbound w'
      = outbound w ++ [mkMessageRequest (nextMessageId w) "video.notifyError"
                                        [JsString errorMessage]]
      /\ length (transportSends w') = S (length (transportSends w))).
Proof.
  intros Hh Hf w'. subst w'.
  rewrite (callHandler_newVideoFrame w frameCallback [frame] Hh). cbn [nth].
  rewrite (newVideoFrameHandler_delivers frameCallback frame w Hf).
  split_and!.
  - by rewrite invocations_complete_all.
  - intros ->. cbn. unfold video.notifyVideoFrameProcessed.
    by rewrite outbound_sendMessageToParent, length_transportSends_sendMessageToParent.
  - intros errorMessage ->. cbn. unfold video.notifyError.
    by rewrite outbound_sendMessageToParent, length_transportSends_sendMessageToParent.
Qed.

Lemma video_frame_completion_sends_one_event_witness :
  let w := worldOf (video.registerForVideoFrame Sample.videoEffectCallback JsNull
                      (Sample.world FrameContexts.sidePanel true
                                    HostClientType.android "2.0.0")) in
  let w' := video.callHandler "video.newVideoFrame" [Sample.videoFrameMock] w in
  handlers w !! "video.newVideoFrame" = Some (NewVideoFrameHandler Sample.videoEffectCallback)
  /\ Sample.videoFrameMock <> JsUndefined
  /\ Sample.videoEffectCallback Sample.videoFrameMock = [NotifyVideoFrameProcessed]
  /\ outbound w'
     = outbound w ++ [mkMessageRequest (nextMessageId w) "video.videoFrameProcessed" []]
  /\ length (transportSends w') = S (length (transportSends w)).
Proof.
  intros w w'.
  assert (Hh : handlers w !! "video.newVideoFrame"
               = Some (NewVideoFrameHandler Sample.videoEffectCallback))
    by (vm_compute; reflexivity).
  assert (Hf : Sample.videoFrameMock <> JsUndefined) by discriminate.
  split; [exact Hh|]. split; [exact Hf|]. split; [reflexivity|].
  apply (video_frame_completion_sends_one_event w Sample.videoEffectCallback
           Sample.videoFrameMock Hh Hf). reflexivity.
Defined.

(** C2, as amended. For every registered video frame callback, a pushed
    frame event whose payload is [undefined] is dropped: the world after
    the event is the world before it, so the callback was not invoked and
    no envelope, frame-processed or frame-error, was sent. A [null]
    payload is not dropped: the callback is invoked with it and its
    completions are sent. *)
Theorem video_undefined_frame_is_dropped
    (w : World) (frameCallback : VideoFrameCallback) :
  handlers w !! "video.newVideoFrame" = Some (NewVideoFrameHandler frameCallback) ->
  let w' := video.callHandler "video.newVideoFrame" [JsUndefined] w in
  w' = w
  /\ invocations w' = invocations w
  /\ transportSends w' = transportSends w
  /\ video.callHandler "video.newVideoFrame" [] w = w
  /\ video.callHandler "video.newVideoFrame" [JsNull] w
     = fold_left (fun w c => video.complete c w) (frameCallback JsNull)
                 (logInvocation (FrameCallbackInvoked JsNull) w).
Proof.
  intros Hh w'. subst w'.
  rewrite !(callHandler_newVideoFrame w frameCallback _ Hh). by cbn.
Qed.

Lemma video_undefined_frame_is_dropped_witness :
  let w := worldOf (video.registerForVideoFrame Sample.videoEffectCallback JsNull
                      (Sample.world FrameContexts.sidePanel false
                                    HostClientType.web "2.0.0")) in
  handlers w !! "video.newVideoFrame" = Some (NewVideoFrameHandler Sample.videoEffectCallback)
  /\ video.callHandler "video.newVideoFrame" [JsUndefined] w = w.
Proof.
  intros w.
  assert (Hh : handlers w !! "video.newVideoFrame"
               = Some (NewVideoFrameHandler Sample.videoEffectCallback))
    by (vm_compute; reflexivity).
  split; [exact Hh|].
  apply (video_undefined_frame_is_dropped w Sample.videoEffectCallback Hh).
Defined.

(** C2, as worded: a [null] frame is not dropped. With the callback of
    the [notifyError] test registered, a pushed [null] frame invokes the
    callback once and sends one ['video.notifyError'] envelope. *)
Lemma video_null_frame_reaches_callback :
  let w := worldOf (video.registerForVideoFrame Sample.videoEffectCallback JsNull
                      (Sample.world FrameContexts.sidePanel false
                                    HostClientType.web "2.0.0")) in
  let w' := video.callHandler "video.newVideoFrame" [JsNull] w in
  invocations w = []
  /\ invocations w' = [FrameCallbackInvoked JsNull]
  /\ outbound w'
     = outbound w ++ [mkMessageRequest 2 "video.notifyError" [JsString "error occurs"]].
Proof. intros w w'. split_and!; by vm_compute. Qed.

(** ** The tests of [video.spec.ts], run on the model *)

Example registerForVideoFrame_sends_config (frameless : bool) (config : JsValue) :
  msg_args <$> findMessageByFunc "video.registerForVideoFrame"
    (worldOf (video.registerForVideoFrame Sample.videoEffectCallback config
                (Sample.world FrameContexts.sidePanel frameless HostClientType.web "2.0.0")))
  = Some [config].
Proof. by destruct frameless. Qed.

Example registerForVideoFrame_registers_handler (frameless : bool) :
  msg_args <$> findMessageByFunc "registerHandler"
    (worldOf (video.registerForVideoFrame Sample.videoEffectCallback JsNull
                (Sample.world FrameContexts.sidePanel frameless HostClientType.web "2.0.0")))
  = Some [JsString "video.newVideoFrame"].
Proof. by destruct frameless. Qed.

Example videoFrameProcessed_is_sent (frameless : bool) :
  let w := worldOf (video.registerForVideoFrame Sample.videoEffectCallback JsNull
                      (Sample.world FrameContexts.sidePanel frameless
                                    HostClientType.web "2.0.0")) in
  msg_args <$> findMessageByFunc "video.videoFrameProcessed"
    (video.callHandler "video.newVideoFrame" [Sample.videoFrameMock] w)
  = Some [].
Proof. by destruct frameless. Qed.

Example notifyError_is_sent (frameless : bool) :
  let w := worldOf (video.registerForVideoFrame Sample.videoEffectCallback JsNull
                      (Sample.world FrameContexts.sidePanel frameless
                                    HostClientType.web "2.0.0")) in
  msg_args <$> findMessageByFunc "video.notifyError"
    (video.callHandler "video.newVideoFrame" [JsNull] w)
  = Some [JsString "error occurs"].
Proof. by destruct frameless. Qed.

Example undefined_frame_invokes_nothing (frameless : bool) :
  let w := worldOf (video.registerForVideoFrame Sample.videoEffectCallback JsNull
                      (Sample.world FrameContexts.sidePanel frameless
                                    HostClientType.web "2.0.0")) in
  invocations (video.callHandler "video.newVideoFrame" [JsUndefined] w) = [].
Proof. by destruct frameless. Qed.

Example notifySelectedVideoEffectChanged_sends (frameless : bool) :
  msg_args <$> findMessageByFunc "video.videoEffectChanged"
    (worldOf (video.notifySelectedVideoEffectChanged
                (JsString "EffectChanged") (JsString "effectId")
                (Sample.world FrameContexts.sidePanel frameless HostClientType.web "2.0.0")))
  = Some [JsString "EffectChanged"; JsString "effectId"].
Proof. by destruct frameless. Qed.

Example registerForVideoEffect_registers_handler (frameless : bool) :
  msg_args <$> findMessageByFunc "registerHandler"
    (worldOf (video.registerForVideoEffect
                (Sample.world FrameContexts.sidePanel frameless HostClientType.web "2.0.0")))
  = Some [JsString "video.effectParameterChange"].
Proof. by destruct frameless. Qed.

Example effectParameterChange_invokes_handler (frameless : bool) :
  let w := worldOf (video.registerForVideoEffect
                      (Sample.world FrameContexts.sidePanel frameless
                                    HostClientType.web "2.0.0")) in
  invocations (video.callHandler "video.effectParameterChange"
                 [JsString "sampleEffectId"] w)
  = [EffectCallbackInvoked (JsString "sampleEffectId")].
Proof. by destruct frameless. Qed.

Example wrong_context_message :
  wrongContextMessage [FrameContexts.sidePanel] FrameContexts.content
  = "This call is only allowed in following contexts: [" +:+ dquote +:+ "sidePanel"
    +:+ dquote +:+ "]. Current context: " +:+ dquote +:+ "content" +:+ dquote +:+ ".".
Proof. reflexivity. Qed.

(* ===================================================================== *)
(** * Further properties of [media.ts] *)
(* ===================================================================== *)

(** ** Outcomes are final *)

(** X1. Once the promise of a [getMedia] call has settled, fulfilled or
    rejected, no later envelope changes it, in either strategy: a late
    chunk, a late terminal chunk or a late error leaves the delivered
    outcome as it is. *)
Theorem getMedia_outcome_is_final {assembly : MediaAssembly}
    (call : GetMediaCall) (actionName : string) (w : World)
    (later : list (option MediaResult)) (laterEvents : list (string * JsonParse)) :
  settled (promise call) = true ->
  promise (feedCallback later call) = promise call
  /\ promise (fst (deliverAll actionName laterEvents (call, w))) = promise call.
Proof.
  intros Hs. split.
  - by apply feedCallback_settled.
  - by rewrite deliverAll_settled.
Qed.

Lemma getMedia_outcome_is_final_witness :
  let call := mkGetMediaCall (Fulfilled (mkBlob [Byte.x01] "image/jpeg"))
                (mkMediaHelper "image/jpeg" []) in
  settled (promise call) = true
  /\ promise (feedCallback (assembly := Sample.assembly)
                [Some Sample.errorEnvelope; None] call) = promise call.
Proof.
  intros call. split; [reflexivity|].
  apply (getMedia_outcome_is_final (assembly := Sample.assembly) call "guid"
           (Sample.world "content" false "web" "1.9.0")
           [Some Sample.errorEnvelope; None] []). reflexivity.
Defined.

(** ** Missing data *)

(** X2. While the promise is pending, an answer without data rejects
    it with [{ errorCode: INTERNAL_ERROR, message: 'data receieved is
    null' }]: a null [mediaResult] in the callback strategy, and in both
    strategies a [mediaResult] that has neither error nor chunk; the named
    handler unregisters itself as it rejects. *)
Theorem getMedia_missing_data_rejects_internal_error {assembly : MediaAssembly}
    (call : GetMediaCall) (actionName : string) (w : World) :
  promise call = Pending ->
  let rejected := mkGetMediaCall (Rejected dataReceivedIsNull) (helper call) in
  getMediaCallback None call = rejected
  /\ getMediaCallback (Some (mkMediaResult None None)) call = rejected
  /\ getMediaHandler actionName (JsonValue (Some (mkMediaResult None None))) call w
     = Returns rejected (removeHandler ("getMedia" +:+ actionName) w)
  /\ dataReceivedIsNull
     = ThrownSdkError (mkSdkError INTERNAL_ERROR (Some "data receieved is null")).
Proof.
  intros P rejected. subst rejected.
  rewrite (getMediaCallback_null_chunk (mkMediaResult None None) call eq_refl eq_refl),
          (getMediaHandler_null_chunk actionName (mkMediaResult None None) call w
             eq_refl eq_refl).
  unfold getMediaCallback, settle. rewrite P. done.
Qed.

Lemma getMedia_missing_data_rejects_internal_error_witness :
  promise Sample.callInProgress = Pending
  /\ getMediaCallback (assembly := Sample.assembly) None Sample.callInProgress
     = mkGetMediaCall (Rejected dataReceivedIsNull) (helper Sample.callInProgress).
Proof.
  split; [reflexivity|].
  apply (getMedia_missing_data_rejects_internal_error (assembly := Sample.assembly)
           Sample.callInProgress "guid" (Sample.world "content" false "web" "1.9.0")).
  reflexivity.
Defined.

(** ** The two strategies compared *)

Lemma getMediaHandler_follows_callback {assembly : MediaAssembly}
    (a : string) (r : MediaResult) (call : GetMediaCall) (w : World) :
  if isDataEnvelope r then
    getMediaHandler a (JsonValue (Some r)) call w
    = Returns (getMediaCallback (Some r) call) w
    /\ promise (getMediaCallback (Some r) call) = promise call
  else
    getMediaHandler a (JsonValue (Some r)) call w
    = Returns (getMediaCallback (Some r) call) (removeHandler ("getMedia" +:+ a) w)
    /\ settled (promise (getMediaCallback (Some r) call)) = true.
Proof.
  unfold isDataEnvelope, getMediaHandler, getMediaCallback.
  destruct (error r); [split; [done|]; cbn; by destruct (promise call)|].
  destruct (mediaChunk r) as [c|]; [|split; [done|]; cbn; by destruct (promise call)].
  destruct (chunkSequence c <=? 0); cbn; (split; [done|]); cbn;
    by destruct (promise call).
Qed.

Lemma deliver_registered {assembly : MediaAssembly}
    (a : string) (response : JsonParse) (call : GetMediaCall) (w : World) :
  handlers w !! ("getMedia" +:+ a) = Some (GetMediaHandler a) ->
  deliver a ("getMedia" +:+ a, response) (call, w)
  = match getMediaHandler a response call w with
    | Returns call' w' => (call', w')
    | Throws _ w' => (call, w')
    end.
Proof.
  intros Hh. unfold deliver, callHandler. cbn [fst snd].
  by rewrite Hh, String.eqb_refl.
Qed.

(** X3. The two delivery strategies agree on every stream of non-null
    envelopes: fed the same envelopes in the same order, the named handler
    of a call just started leaves the promise exactly as the callback
    leaves it. *)
Theorem getMedia_strategies_agree {assembly : MediaAssembly}
    (this : Media) (actionName : string) (w : World) (results : list MediaResult) :
  exists viaCallback w1 viaHandler w2,
    getMediaViaCallback this w = Returns viaCallback w1
    /\ getMediaViaHandler this actionName w = Returns viaHandler w2
    /\ promise (fst (deliverAll actionName (eventsOfResults actionName results)
                       (viaHandler, w2)))
       = promise (feedCallback (map Some results) viaCallback).
Proof.
  destruct (getMediaViaHandler_start this actionName w) as (w2 & E & Hh).
  eexists _, _, _, w2. split; [reflexivity|]. split; [exact E|].
  assert (Hl : handlers w2 !! ("getMedia" +:+ actionName)
               = Some (GetMediaHandler actionName))
    by (rewrite Hh; apply lookup_insert_eq).
  clear E Hh. generalize (mkGetMediaCall Pending (mkMediaHelper (mimeType this) [])).
  induction results as [|r rs IH]; intros call; [done|].
  change (deliverAll actionName (eventsOfResults actionName (r :: rs)) (call, w2))
    with (deliverAll actionName (eventsOfResults actionName rs)
            (deliver actionName ("getMedia" +:+ actionName, JsonValue (Some r)) (call, w2))).
  change (feedCallback (map Some (r :: rs)) call)
    with (feedCallback (map Some rs) (getMediaCallback (Some r) call)).
  rewrite (deliver_registered actionName _ call w2 Hl).
  pose proof (getMediaHandler_follows_callback actionName r call w2) as F.
  destruct (isDataEnvelope r); destruct F as [-> F].
  - apply IH.
  - rewrite deliverAll_settled, feedCallback_settled; done.
Qed.

(** ** What reassembly does to the world *)

Lemma deliver_world_step {assembly : MediaAssembly}
    (a : string) (event : string * JsonParse) (s : GetMediaCall * World) :
  snd (deliver a event s) = snd s
  \/ snd (deliver a event s) = removeHandler ("getMedia" +:+ a) (snd s).
Proof.
  unfold deliver, callHandler.
  destruct (handlers (snd s) !! fst event) as [[b| | |]|]; try (left; done).
  destruct (String.eqb b a); [|left; done].
  unfold getMediaHandler.
  destruct (snd event) as [|[r|]]; try (left; done).
  destruct (error r); [right; done|].
  destruct (mediaChunk r) as [c|]; [|right; done].
  destruct (chunkSequence c <=? 0); [right; done|left; done].
Qed.

Lemma removeHandler_idemp name w :
  removeHandler name (removeHandler name w) = removeHandler name w.
Proof. unfold removeHandler, setHandlers; cbn. by rewrite delete_delete_eq. Qed.

Lemma deliverAll_world {assembly : MediaAssembly}
    (a : string) (events : list (string * JsonParse)) (s : GetMediaCall * World) :
  snd (deliverAll a events s) = snd s
  \/ snd (deliverAll a events s) = removeHandler ("getMedia" +:+ a) (snd s).
Proof.
  revert s. induction events as [|e es IH]; intros s; [left; done|].
  change (deliverAll a (e :: es) s) with (deliverAll a es (deliver a e s)).
  destruct (IH (deliver a e s)) as [->| ->];
    destruct (deliver_world_step a e s) as [->| ->]; auto.
  right. apply removeHandler_idemp.
Qed.

(** X4. Whatever events the named handler of a [getMedia] call
    receives, reassembly sends nothing to the host: no envelope reaches
    either transport and no message identifier is used. The only trace it
    leaves in the world is the removal of its own registry entry; every
    other handler stays registered. *)
Theorem getMedia_reassembly_sends_nothing {assembly : MediaAssembly}
    (actionName : string) (events : list (string * JsonParse))
    (s : GetMediaCall * World) :
  let w' := snd (deliverAll actionName events s) in
  parentWindowPosts w' = parentWindowPosts (snd s)
  /\ nativeInterfacePosts w' = nativeInterfacePosts (snd s)
  /\ nextMessageId w' = nextMessageId (snd s)
  /\ forall name, name <> "getMedia" +:+ actionName ->
       handlers w' !! name = handlers (snd s) !! name.
Proof.
  intros w'. subst w'.
  destruct (deliverAll_world actionName events s) as [->| ->]; [done|].
  split_and!; try done.
  intros name Hne. rewrite handlers_removeHandler. by apply lookup_delete_ne.
Qed.

(** X5. In the handler strategy a response that [JSON.parse] rejects,
    or parses to [null], is as good as never sent: the handler throws
    before touching the call, so a stream of events leaves the call and the
    world exactly where the same stream without those responses leaves
    them. *)
Theorem getMediaHandler_skips_unparsed_responses {assembly : MediaAssembly}
    (actionName : string) (events : list (string * JsonParse))
    (s : GetMediaCall * World) :
  deliverAll actionName events s
  = deliverAll actionName (filter (fun e => parsed (snd e) = true) events) s.
Proof.
  revert s. induction events as [|e es IH]; intros s; [done|].
  change (deliverAll actionName (e :: es) s)
    with (deliverAll actionName es (deliver actionName e s)).
  rewrite filter_cons. destruct (decide (parsed (snd e) = true)) as [Hp|Hp].
  - change (deliverAll actionName (e :: filter _ es) s)
      with (deliverAll actionName (filter (fun e => parsed (snd e) = true) es)
              (deliver actionName e s)).
    apply IH.
  - rewrite <- IH. f_equal.
    unfold deliver, callHandler. destruct s as [call w]. cbn [fst snd].
    destruct (handlers w !! fst e) as [[b| | |]|]; try done.
    destruct (String.eqb b actionName); [|done].
    by destruct (snd e) as [|[r|]].
Qed.

(** ** Starting a call *)

Lemma wireOf_outbound_sendMessageToParent f args w :
  map wireOf (outbound (sendMessageToParent f args w))
  = map wireOf (outbound w) ++ [(f, args)].
Proof. by rewrite outbound_sendMessageToParent, map_app. Qed.

Lemma outbound_setHandlers h w : outbound (setHandlers h w) = outbound w.
Proof. reflexivity. Qed.

Lemma getMedia_gates_pass
    {constants : InternalConstants} {internalAPIs : InternalAPIs}
    {validators : MediaValidators} (this : Media) (actionName : string) (w : World) :
  inAllowedContext (globalVars w) = true ->
  isAPISupportedByPlatform mediaAPISupportVersion (globalVars w) = true ->
  validateGetMediaInputs (mimeType this) (format this) (content this) = true ->
  getMedia this actionName w
  = if isAPISupportedByPlatform getMediaCallbackSupportVersion (globalVars w)
    then getMediaViaCallback this w
    else getMediaViaHandler this actionName w.
Proof.
  intros C V A. unfold getMedia, supported.
  unfold mbind at 1, Exec_bind at 1.
  assert (E : ensureInitialized [FrameContexts.content; FrameContexts.task] w
              = Returns tt w).
  { apply ensureInitialized_allowed. by apply bool_decide_eq_true in C. }
  rewrite E. run_exec. rewrite V. cbn. rewrite A. cbn.
  by destruct (isAPISupportedByPlatform getMediaCallbackSupportVersion (globalVars w)).
Qed.

(** X6. A [getMedia] call that passes its gates asks the host once.
    On a host that supports callbacks it sends one ['getMedia'] envelope
    with the content identifier alone and registers nothing. Otherwise it
    registers its handler under ['getMedia' + actionName] and sends
    ['getMedia'] with the action name and the content identifier, unless
    the content is empty, in which case the handler is registered but
    nothing is requested. Either way the promise starts pending on an empty
    buffer tagged with the MIME type of the media. *)
Theorem getMedia_asks_the_host_once
    {constants : InternalConstants} {internalAPIs : InternalAPIs}
    {validators : MediaValidators} (this : Media) (actionName : string) (w : World) :
  inAllowedContext (globalVars w) = true ->
  isAPISupportedByPlatform mediaAPISupportVersion (globalVars w) = true ->
  validateGetMediaInputs (mimeType this) (format this) (content this) = true ->
  exists w',
    getMedia this actionName w
    = Returns (mkGetMediaCall Pending (mkMediaHelper (mimeType this) [])) w'
    /\ if isAPISupportedByPlatform getMediaCallbackSupportVersion (globalVars w)
       then map wireOf (outbound w')
            = map wireOf (outbound w) ++ [("getMedia", [JsString (content this)])]
            /\ handlers w' = handlers w
       else map wireOf (outbound w')
            = map wireOf (outbound w)
              ++ (if String.eqb (content this) EmptyString then []
                  else [("getMedia", [JsString actionName; JsString (content this)])])
              ++ [("registerHandler", [JsString ("getMedia" +:+ actionName)])]
            /\ handlers w'
               = <["getMedia" +:+ actionName := GetMediaHandler actionName]> (handlers w).
Proof.
  intros C V A. rewrite (getMedia_gates_pass this actionName w C V A).
  destruct (isAPISupportedByPlatform getMediaCallbackSupportVersion (globalVars w)).
  - eexists. split; [reflexivity|].
    rewrite wireOf_outbound_sendMessageToParent.
    by rewrite handlers_sendMessageToParent.
  - unfold getMediaViaHandler, registerHandler.
    destruct (String.eqb (content this) EmptyString); run_exec;
      eexists; (split; [reflexivity|]);
      rewrite !wireOf_outbound_sendMessageToParent, !handlers_sendMessageToParent;
      cbn; (split; [|done]); rewrite outbound_setHandlers;
      rewrite ?wireOf_outbound_sendMessageToParent; by rewrite <- ?app_assoc.
Qed.

Lemma getMedia_asks_the_host_once_witness :
  let w := Sample.world FrameContexts.task true HostClientType.android "2.0.0" in
  inAllowedContext (globalVars w) = true
  /\ isAPISupportedByPlatform (InternalAPIs := Sample.internalAPIs)
       (mediaAPISupportVersion (InternalConstants := Sample.constants)) (globalVars w) = true
  /\ validateGetMediaInputs (MediaValidators := Sample.validators)
       (mimeType Sample.image) (format Sample.image) (content Sample.image) = true
  /\ exists w',
       getMedia (constants := Sample.constants) (internalAPIs := Sample.internalAPIs)
         (validators := Sample.validators) Sample.image "guid" w
       = Returns (mkGetMediaCall Pending (mkMediaHelper "image/jpeg" [])) w'
       /\ map wireOf (outbound w') = [("getMedia", [JsString "1234567"])]
       /\ handlers w' = handlers w.
Proof.
  intros w.
  assert (C : inAllowedContext (globalVars w) = true) by (vm_compute; reflexivity).
  assert (V : isAPISupportedByPlatform (InternalAPIs := Sample.internalAPIs)
                (mediaAPISupportVersion (InternalConstants := Sample.constants))
                (globalVars w) = true) by (vm_compute; reflexivity).
  assert (A : validateGetMediaInputs (MediaValidators := Sample.validators)
                (mimeType Sample.image) (format Sample.image) (content Sample.image)
              = true) by (vm_compute; reflexivity).
  split; [exact C|]. split; [exact V|]. split; [exact A|].
  exact (getMedia_asks_the_host_once (constants := Sample.constants)
           (internalAPIs := Sample.internalAPIs) (validators := Sample.validators)
           Sample.image "guid" w C V A).
Defined.

(** X7. End to end, for any [createFile] and [decodeAttachment]: a
    [getMedia] call that passes its gates, then receives chunks with
    positive sequence numbers and a terminal chunk, resolves, by whichever
    strategy the host's version selects, with [createFile] applied to the
    chunks decoded in arrival order, each decoded and the whole assembled
    with the MIME type of the media. *)
Theorem getMedia_delivers_decoded_chunks
    {constants : InternalConstants} {internalAPIs : InternalAPIs}
    {assembly : MediaAssembly} {validators : MediaValidators}
    (this : Media) (actionName : string) (w : World)
    (chunks : list MediaChunk) (last : MediaChunk) :
  inAllowedContext (globalVars w) = true ->
  isAPISupportedByPlatform mediaAPISupportVersion (globalVars w) = true ->
  validateGetMediaInputs (mimeType this) (format this) (content this) = true ->
  Forall (fun c => 0 < chunkSequence c) chunks ->
  chunkSequence last <= 0 ->
  exists call0 w0,
    getMedia this actionName w = Returns call0 w0
    /\ promise
         (if isAPISupportedByPlatform getMediaCallbackSupportVersion (globalVars w)
          then feedCallback (responsesOf (chunks ++ [last])) call0
          else fst (deliverAll actionName (eventsOf actionName (chunks ++ [last]))
                      (call0, w0)))
       = Fulfilled (createFile
                      (map (fun c => decodeAttachment c (mimeType this)) chunks)
                      (mimeType this)).
Proof.
  intros C V A F L. rewrite (getMedia_gates_pass this actionName w C V A).
  destruct (isAPISupportedByPlatform getMediaCallbackSupportVersion (globalVars w)).
  - eexists _, _. split; [reflexivity|].
    unfold responsesOf. rewrite map_app, feedCallback_app. fold (responsesOf chunks).
    rewrite (feedCallback_data chunks _ F).
    cbn [map feedCallback fold_left].
    by rewrite (getMediaCallback_terminal last _ L).
  - destruct (getMediaViaHandler_start this actionName w) as (w0 & E & Hh).
    assert (Hl : handlers w0 !! ("getMedia" +:+ actionName)
                 = Some (GetMediaHandler actionName))
      by (rewrite Hh; apply lookup_insert_eq).
    eexists _, w0. split; [exact E|].
    unfold eventsOf. rewrite map_app, deliverAll_app. fold (eventsOf actionName chunks).
    rewrite (deliverAll_data actionName chunks _ w0 Hl F).
    cbn [map deliverAll fold_left].
    rewrite (deliver_registered actionName _ _ w0 Hl).
    by rewrite (getMediaHandler_terminal actionName last _ w0 L).
Qed.

Lemma getMedia_delivers_decoded_chunks_witness :
  let w := Sample.world FrameContexts.content false HostClientType.android "1.9.0" in
  inAllowedContext (globalVars w) = true
  /\ isAPISupportedByPlatform (InternalAPIs := Sample.internalAPIs)
       (mediaAPISupportVersion (InternalConstants := Sample.constants)) (globalVars w) = true
  /\ validateGetMediaInputs (MediaValidators := Sample.validators)
       (mimeType Sample.image) (format Sample.image) (content Sample.image) = true
  /\ Forall (fun c => 0 < chunkSequence c) Sample.chunks321
  /\ chunkSequence Sample.chunk0 <= 0
  /\ exists call0 w0,
       getMedia (constants := Sample.constants) (internalAPIs := Sample.internalAPIs)
         (validators := Sample.validators) Sample.image "guid" w
       = Returns call0 w0
       /\ promise (fst (deliverAll (assembly := Sample.assembly) "guid"
                          (eventsOf "guid" (Sample.chunks321 ++ [Sample.chunk0]))
                          (call0, w0)))
          = Fulfilled (createFile (MediaAssembly := Sample.assembly)
                         (map (fun c => decodeAttachment (MediaAssembly := Sample.assembly)
                                          c "image/jpeg") Sample.chunks321)
                         "image/jpeg").
Proof.
  intros w.
  assert (C : inAllowedContext (globalVars w) = true) by (vm_compute; reflexivity).
  assert (V : isAPISupportedByPlatform (InternalAPIs := Sample.internalAPIs)
                (mediaAPISupportVersion (InternalConstants := Sample.constants))
                (globalVars w) = true) by (vm_compute; reflexivity).
  assert (A : validateGetMediaInputs (MediaValidators := Sample.validators)
                (mimeType Sample.image) (format Sample.image) (content Sample.image)
              = true) by (vm_compute; reflexivity).
  assert (F : Forall (fun c => 0 < chunkSequence c) Sample.chunks321)
    by (repeat constructor).
  assert (L : chunkSequence Sample.chunk0 <= 0) by (cbn; lia).
  split; [exact C|]. split; [exact V|]. split; [exact A|].
  split; [exact F|]. split; [exact L|].
  exact (getMedia_delivers_decoded_chunks (constants := Sample.constants)
           (internalAPIs := Sample.internalAPIs) (assembly := Sample.assembly)
           (validators := Sample.validators)
           Sample.image "guid" w Sample.chunks321 Sample.chunk0 C V A F L).
Defined.

(** ** The continuation of [selectMedia] and the [Media] constructor *)

Lemma copyFields_same (that : Media) : copyFields that = that.
Proof. by destruct that as [[c f s m n] p]. Qed.

Lemma fold_left_push {A B} (f : A -> B) (l : list A) (acc : list B) :
  fold_left (fun mediaArray x => mediaArray ++ [f x]) l acc = acc ++ map f l.
Proof.
  revert acc. induction l as [|x l IH]; intros acc; cbn.
  - by rewrite app_nil_r.
  - by rewrite IH, <- app_assoc.
Qed.

(** X8. What [selectMedia] hands back on the host's answer: when the
    answer carries attachments, the promise resolves with those same
    attachments, as many and in the same order, each [Media] equal field
    for field to the attachment it was built from, and the error of the
    answer, if any, is ignored; an empty array of attachments resolves with
    an empty array. Only when the attachments are missing is the error of
    the answer thrown. *)
Theorem selectMedia_returns_host_attachments
    (err : option SdkError) (attachments : list Media) (that : Media) :
  selectMediaThen err (Some attachments) = inl attachments
  /\ selectMediaThen err (Some []) = inl []
  /\ selectMediaThen err None = inr err
  /\ newMedia (Some that) = Some that
  /\ newMedia None = None.
Proof.
  split_and!; try done.
  - unfold selectMediaThen. rewrite fold_left_push. cbn. f_equal.
    rewrite (map_ext _ (fun x => x)) by apply copyFields_same. apply map_id.
  - cbn. by rewrite copyFields_same.
Qed.

(** ** Which caller error wins, and what a passing call sends *)

Section MoreGates.
Context {constants : InternalConstants} {internalAPIs : InternalAPIs}
  {validators : MediaValidators}.

Lemma ensureInitialized_passes w :
  inAllowedContext (globalVars w) = true ->
  ensureInitialized [FrameContexts.content; FrameContexts.task] w = Returns tt w.
Proof. intros C. by rewrite ensureInitialized_gate, C. Qed.

Ltac enter_gates C :=
  unfold captureImage, getMedia, selectMedia, viewImages, scanBarCode, supported,
         sendAndHandleSdkError, sendMessageToParentAsync;
  unfold mbind at 1, Exec_bind at 1;
  rewrite (ensureInitialized_passes _ C); run_exec.

(** X9. When several caller conditions fail at once, in an allowed
    frame context, the first test of the function decides. [captureImage]
    in a framed window and [scanBarCode] on one of its seven unsupported
    hosts reject with [NOT_SUPPORTED_ON_PLATFORM] whatever the platform
    version and the arguments. [getMedia], [selectMedia] and [viewImages]
    on a platform older than the media API reject with [OLD_PLATFORM]
    whatever the host and the arguments; past that test, [selectMedia] with
    video-and-image inputs off a mobile host rejects with
    [NOT_SUPPORTED_ON_PLATFORM] whatever the video-and-image version and
    the validity of the inputs. *)
Theorem media_first_failing_test_decides
    (w : World) (this : Media) (actionName : string)
    (mediaInputs uriList config : JsValue) :
  inAllowedContext (globalVars w) = true ->
  let g := globalVars w in
  (isFramelessWindow g = false ->
     captureImage w = Throws (sdkError NOT_SUPPORTED_ON_PLATFORM) w)
  /\ (hostClientType g ∈ scanBarCodeUnsupportedHosts ->
     scanBarCode config w = Throws (sdkError NOT_SUPPORTED_ON_PLATFORM) w)
  /\ (isAPISupportedByPlatform mediaAPISupportVersion g = false ->
     getMedia this actionName w = Throws (sdkError OLD_PLATFORM) w
     /\ selectMedia mediaInputs w = Throws (sdkError OLD_PLATFORM) w
     /\ viewImages uriList w = Throws (sdkError OLD_PLATFORM) w)
  /\ (isAPISupportedByPlatform mediaAPISupportVersion g = true ->
     isMediaCallForVideoAndImageInputs mediaInputs = true ->
     mobileHost g = false ->
     selectMedia mediaInputs w = Throws (sdkError NOT_SUPPORTED_ON_PLATFORM) w).
Proof.
  intros C g. subst g. split_and!.
  - intros Hf. enter_gates C. by rewrite Hf.
  - intros Hh. enter_gates C. rewrite scanBarCode_hosts_eqb.
    rewrite bool_decide_eq_false_2; [done|]. by intros Hn.
  - intros Hv. split_and!; enter_gates C; by rewrite Hv.
  - intros Hv Hm Hh. enter_gates C. rewrite Hv. cbn. rewrite Hm.
    by rewrite mobileHost_eqb, Hh.
Qed.

End MoreGates.

Lemma media_first_failing_test_decides_witness :
  let w := Sample.world FrameContexts.content false HostClientType.desktop "1.0.0" in
  inAllowedContext (globalVars w) = true
  /\ hostClientType (globalVars w) ∈ scanBarCodeUnsupportedHosts
  /\ scanBarCode (constants := Sample.constants) (internalAPIs := Sample.internalAPIs)
       (validators := Sample.validators) JsNull w
     = Throws (sdkError NOT_SUPPORTED_ON_PLATFORM) w.
Proof.
  intros w.
  assert (C : inAllowedContext (globalVars w) = true) by (vm_compute; reflexivity).
  assert (Hh : hostClientType (globalVars w) ∈ scanBarCodeUnsupportedHosts)
    by (apply (bool_decide_unpack _); vm_compute; exact I).
  split; [exact C|]. split; [exact Hh|].
  exact (proj1 (proj2 (media_first_failing_test_decides (constants := Sample.constants)
                         (internalAPIs := Sample.internalAPIs)
                         (validators := Sample.validators)
                         w Sample.image "guid" JsNull JsNull JsNull C)) Hh).
Defined.


Section PassingCalls.
Context {constants : InternalConstants} {internalAPIs : InternalAPIs}
  {validators : MediaValidators}.

Lemma funcs_outbound_sendMessageToParent f args w :
  map msg_func (outbound (sendMessageToParent f args w))
  = map msg_func (outbound w) ++ [f].
Proof. by rewrite outbound_sendMessageToParent, map_app. Qed.

Ltac pass_gate H :=
  match goal with
  | |- context [negb ?b] =>
      destruct b eqn:?; cbn in H |- *;
      rewrite ?andb_false_r in H; try discriminate H
  end.

(** X10. When every caller condition of [captureImage], [selectMedia],
    [viewImages] or [scanBarCode] holds, the call sends exactly one
    request, under its own function name ([scanBarCode] alone is prefixed:
    ['media.scanBarCode']), registers no handler and returns a pending
    promise; [selectMedia] sends its inputs as the single argument. *)
Theorem media_passing_call_sends_one_request (op : Operation) (w : World) :
  allPass (callerGates op (globalVars w)) = true ->
  match op with
  | GetMedia _ _ => True
  | _ =>
      exists w',
        invoke op w = Returns Pending w'
        /\ map msg_func (outbound w') = map msg_func (outbound w) ++ [requestName op]
        /\ length (transportSends w') = S (length (transportSends w))
        /\ handlers w' = handlers w
        /\ match op with
           | SelectMedia mediaInputs =>
               map wireOf (outbound w')
               = map wireOf (outbound w) ++ [("selectMedia", [mediaInputs])]
           | _ => True
           end
  end.
Proof.
  intros H. unfold allPass, callerGates in H.
  destruct op as [|this a|mediaInputs|uriList|config]; [|done|..];
    cbn [contextAllowed platformSupported versionSupported argumentsValid] in H;
    (destruct (inAllowedContext (globalVars w)) eqn:C; [|discriminate H]);
    unfold invoke, captureImage, selectMedia, viewImages, scanBarCode, supported,
           sendAndHandleSdkError, sendMessageToParentAsync;
    unfold mbind at 1, Exec_bind at 1; unfold mbind at 1, Exec_bind at 1;
    rewrite (ensureInitialized_passes _ C); run_exec.
  - pass_gate H. pass_gate H.
    eexists. split; [reflexivity|].
    by rewrite funcs_outbound_sendMessageToParent,
               length_transportSends_sendMessageToParent, handlers_sendMessageToParent.
  - destruct (isAPISupportedByPlatform mediaAPISupportVersion (globalVars w));
      cbn in H |- *; [|rewrite ?andb_false_r in H; discriminate H].
    destruct (isMediaCallForVideoAndImageInputs mediaInputs); cbn.
    + rewrite mobileHost_eqb.
      destruct (mobileHost (globalVars w)); cbn in H |- *; [|discriminate H].
      pass_gate H. pass_gate H.
      eexists. split; [reflexivity|].
      by rewrite funcs_outbound_sendMessageToParent, wireOf_outbound_sendMessageToParent,
                 length_transportSends_sendMessageToParent, handlers_sendMessageToParent.
    + pass_gate H.
      eexists. split; [reflexivity|].
      by rewrite funcs_outbound_sendMessageToParent, wireOf_outbound_sendMessageToParent,
                 length_transportSends_sendMessageToParent, handlers_sendMessageToParent.
  - pass_gate H. pass_gate H.
    eexists. split; [reflexivity|].
    by rewrite funcs_outbound_sendMessageToParent,
               length_transportSends_sendMessageToParent, handlers_sendMessageToParent.
  - rewrite scanBarCode_hosts_eqb.
    destruct (bool_decide (hostClientType (globalVars w) ∉ scanBarCodeUnsupportedHosts));
      cbn in H |- *; [|discriminate H].
    pass_gate H. pass_gate H.
    eexists. split; [reflexivity|].
    by rewrite funcs_outbound_sendMessageToParent,
               length_transportSends_sendMessageToParent, handlers_sendMessageToParent.
Qed.

End PassingCalls.

Lemma media_passing_call_sends_one_request_witness :
  let w := Sample.world FrameContexts.task true HostClientType.ios "2.0.0" in
  allPass (callerGates (constants := Sample.constants)
             (internalAPIs := Sample.internalAPIs) (validators := Sample.validators)
             (ScanBarCode JsNull) (globalVars w)) = true
  /\ exists w',
       invoke (constants := Sample.constants) (internalAPIs := Sample.internalAPIs)
         (validators := Sample.validators) (ScanBarCode JsNull) w = Returns Pending w'
       /\ map msg_func (outbound w') = map msg_func (outbound w) ++ ["media.scanBarCode"]
       /\ length (transportSends w') = S (length (transportSends w))
       /\ handlers w' = handlers w
       /\ True.
Proof.
  intros w.
  assert (H : allPass (callerGates (constants := Sample.constants)
                (internalAPIs := Sample.internalAPIs) (validators := Sample.validators)
                (ScanBarCode JsNull) (globalVars w)) = true)
    by (vm_compute; reflexivity).
  split; [exact H|].
  exact (media_passing_call_sends_one_request (constants := Sample.constants)
           (internalAPIs := Sample.internalAPIs) (validators := Sample.validators)
           (ScanBarCode JsNull) w H).
Defined.

(* ===================================================================== *)
(** * Further properties of the video pipeline *)
(* ===================================================================== *)

Lemma ensureInitialized_sidePanel w :
  frameContext (globalVars w) = FrameContexts.sidePanel ->
  ensureInitialized [FrameContexts.sidePanel] w = Returns tt w.
Proof.
  intros E. apply ensureInitialized_allowed. rewrite E. by left.
Qed.

Lemma complete_all_handlers l v :
  handlers (fold_left (fun w c => video.complete c w) l v) = handlers v.
Proof.
  revert v. induction l as [|c l IH]; intros v; [done|].
  cbn. rewrite IH. destruct c; apply handlers_sendMessageToParent.
Qed.

Lemma complete_all_outbound l v :
  map wireOf (outbound (fold_left (fun w c => video.complete c w) l v))
  = map wireOf (outbound v) ++ map video.wire l.
Proof.
  revert v. induction l as [|c l IH]; intros v; cbn; [by rewrite app_nil_r|].
  rewrite IH. destruct c; cbn;
    unfold video.notifyVideoFrameProcessed, video.notifyError;
    by rewrite wireOf_outbound_sendMessageToParent, <- app_assoc.
Qed.

Lemma pushFrames_registered (frameCallback : VideoFrameCallback) frames w :
  handlers w !! "video.newVideoFrame" = Some (NewVideoFrameHandler frameCallback) ->
  let delivered := filter (fun f => video.isUndefined f = false) frames in
  handlers (video.pushFrames frames w) = handlers w
  /\ invocations (video.pushFrames frames w)
     = invocations w ++ map FrameCallbackInvoked delivered
  /\ map wireOf (outbound (video.pushFrames frames w))
     = map wireOf (outbound w) ++ map video.wire (flat_map frameCallback delivered).
Proof.
  revert w. induction frames as [|f fs IH]; intros w Hh delivered; subst delivered.
  - cbn. by rewrite !app_nil_r.
  - change (video.pushFrames (f :: fs) w)
      with (video.pushFrames fs (video.callHandler "video.newVideoFrame" [f] w)).
    rewrite (callHandler_newVideoFrame w frameCallback [f] Hh). cbn [nth].
    rewrite filter_cons.
    destruct (decide (video.isUndefined f = false)) as [Hf|Hf].
    + assert (Hne : f <> JsUndefined) by (by intros ->).
      rewrite (newVideoFrameHandler_delivers frameCallback f w Hne).
      set (w1 := fold_left _ _ _).
      assert (H1 : handlers w1 = handlers w)
        by (subst w1; by rewrite complete_all_handlers).
      destruct (IH w1) as (Ha & Hb & Hc); [by rewrite H1|].
      rewrite Ha, Hb, Hc. subst w1.
      rewrite invocations_complete_all, complete_all_outbound. cbn.
      rewrite H1, map_app, <- !app_assoc. done.
    + destruct f; try (by destruct Hf). cbn. by apply IH.
Qed.

(** X11. After [registerForVideoFrame] from the side panel, which
    sends one ['registerHandler'] envelope for ['video.newVideoFrame'] and
    one ['video.registerForVideoFrame'] envelope carrying the config,
    frames pushed by the host reach the callback in the order pushed, the
    [undefined] ones left out; the envelopes sent back are exactly the
    completions the callback called, frame by frame and in order, and the
    handler stays registered. *)
Theorem video_frames_reach_callback_in_order
    (w : World) (frameCallback : VideoFrameCallback) (config : JsValue)
    (frames : list JsValue) :
  frameContext (globalVars w) = FrameContexts.sidePanel ->
  let delivered := filter (fun f => video.isUndefined f = false) frames in
  exists w0,
    video.registerForVideoFrame frameCallback config w = Returns tt w0
    /\ map wireOf (outbound w0)
       = map wireOf (outbound w)
         ++ [("registerHandler", [JsString "video.newVideoFrame"]);
             ("video.registerForVideoFrame", [config])]
    /\ invocations (video.pushFrames frames w0)
       = invocations w ++ map FrameCallbackInvoked delivered
    /\ map wireOf (outbound (video.pushFrames frames w0))
       = map wireOf (outbound w0) ++ map video.wire (flat_map frameCallback delivered)
    /\ handlers (video.pushFrames frames w0) !! "video.newVideoFrame"
       = Some (NewVideoFrameHandler frameCallback).
Proof.
  intros E delivered.
  unfold video.registerForVideoFrame.
  unfold mbind at 1, Exec_bind at 1. rewrite (ensureInitialized_sidePanel w E).
  run_exec. eexists. split; [reflexivity|].
  set (w0 := sendMessageToParent _ _ _).
  assert (Hh : handlers w0 !! "video.newVideoFrame"
               = Some (NewVideoFrameHandler frameCallback)).
  { subst w0. unfold registerHandler.
    rewrite !handlers_sendMessageToParent. apply lookup_insert_eq. }
  assert (Hi : invocations w0 = invocations w).
  { subst w0. unfold registerHandler. by rewrite !invocations_sendMessageToParent. }
  destruct (pushFrames_registered frameCallback frames w0 Hh) as (Ha & Hb & Hc).
  split_and!.
  - subst w0. unfold registerHandler.
    rewrite !wireOf_outbound_sendMessageToParent, outbound_setHandlers.
    by rewrite <- app_assoc.
  - by rewrite Hb, Hi.
  - exact Hc.
  - by rewrite Ha.
Qed.

Lemma video_frames_reach_callback_in_order_witness :
  let w := Sample.world FrameContexts.sidePanel true HostClientType.android "2.0.0" in
  let frames := [Sample.videoFrameMock; JsUndefined; JsNull] in
  frameContext (globalVars w) = FrameContexts.sidePanel
  /\ exists w0,
       video.registerForVideoFrame Sample.videoEffectCallback JsNull w = Returns tt w0
       /\ map wireOf (outbound w0)
          = map wireOf (outbound w)
            ++ [("registerHandler", [JsString "video.newVideoFrame"]);
                ("video.registerForVideoFrame", [JsNull])]
       /\ invocations (video.pushFrames frames w0)
          = [FrameCallbackInvoked Sample.videoFrameMock; FrameCallbackInvoked JsNull]
       /\ map wireOf (outbound (video.pushFrames frames w0))
          = map wireOf (outbound w0)
            ++ [("video.videoFrameProcessed", []);
                ("video.notifyError", [JsString "error occurs"])]
       /\ handlers (video.pushFrames frames w0) !! "video.newVideoFrame"
          = Some (NewVideoFrameHandler Sample.videoEffectCallback).
Proof.
  intros w frames.
  assert (E : frameContext (globalVars w) = FrameContexts.sidePanel) by reflexivity.
  split; [exact E|].
  exact (video_frames_reach_callback_in_order w Sample.videoEffectCallback JsNull
           frames E).
Defined.

Lemma pushEffects_registered effectIds w :
  handlers w !! "video.effectParameterChange" = Some EffectParameterChangeHandler ->
  handlers (video.pushEffects effectIds w) = handlers w
  /\ invocations (video.pushEffects effectIds w)
     = invocations w ++ map EffectCallbackInvoked effectIds
  /\ parentWindowPosts (video.pushEffects effectIds w) = parentWindowPosts w
  /\ nativeInterfacePosts (video.pushEffects effectIds w) = nativeInterfacePosts w.
Proof.
  revert w. induction effectIds as [|e es IH]; intros w Hh.
  - cbn. by rewrite app_nil_r.
  - change (video.pushEffects (e :: es) w)
      with (video.pushEffects es (video.callHandler "video.effectParameterChange" [e] w)).
    unfold video.callHandler at 1 2 3 4. rewrite Hh. cbn [nth].
    destruct (IH (logInvocation (EffectCallbackInvoked e) w) Hh) as (Ha & Hb & Hc & Hd).
    rewrite Ha, Hb, Hc, Hd. cbn. by rewrite <- app_assoc.
Qed.

(** X12. After [registerForVideoEffect] from the side panel, which
    sends one ['registerHandler'] envelope for
    ['video.effectParameterChange'], every effect-parameter change the host
    pushes invokes the callback with its effect identifier, in the order
    pushed, and nothing is sent back to the host. *)
Theorem video_effect_changes_reach_callback_in_order
    (w : World) (effectIds : list JsValue) :
  frameContext (globalVars w) = FrameContexts.sidePanel ->
  exists w0,
    video.registerForVideoEffect w = Returns tt w0
    /\ map wireOf (outbound w0)
       = map wireOf (outbound w)
         ++ [("registerHandler", [JsString "video.effectParameterChange"])]
    /\ invocations (video.pushEffects effectIds w0)
       = invocations w ++ map EffectCallbackInvoked effectIds
    /\ transportSends (video.pushEffects effectIds w0) = transportSends w0.
Proof.
  intros E. unfold video.registerForVideoEffect.
  unfold mbind at 1, Exec_bind at 1. rewrite (ensureInitialized_sidePanel w E).
  run_exec. eexists. split; [reflexivity|].
  set (w0 := registerHandler _ _ _).
  assert (Hh : handlers w0 !! "video.effectParameterChange"
               = Some EffectParameterChangeHandler).
  { subst w0. unfold registerHandler.
    rewrite handlers_sendMessageToParent. apply lookup_insert_eq. }
  destruct (pushEffects_registered effectIds w0 Hh) as (Ha & Hb & Hc & Hd).
  split_and!.
  - subst w0. unfold registerHandler.
    by rewrite wireOf_outbound_sendMessageToParent, outbound_setHandlers.
  - rewrite Hb. subst w0. unfold registerHandler.
    by rewrite invocations_sendMessageToParent.
  - unfold transportSends. by rewrite Hc, Hd.
Qed.

Lemma video_effect_changes_reach_callback_in_order_witness :
  let w := Sample.world FrameContexts.sidePanel false HostClientType.web "2.0.0" in
  frameContext (globalVars w) = FrameContexts.sidePanel
  /\ exists w0,
       video.registerForVideoEffect w = Returns tt w0
       /\ map wireOf (outbound w0)
          = map wireOf (outbound w)
            ++ [("registerHandler", [JsString "video.effectParameterChange"])]
       /\ invocations (video.pushEffects [JsString "sampleEffectId"] w0)
          = invocations w ++ [EffectCallbackInvoked (JsString "sampleEffectId")]
       /\ transportSends (video.pushEffects [JsString "sampleEffectId"] w0)
          = transportSends w0.
Proof.
  intros w.
  assert (E : frameContext (globalVars w) = FrameContexts.sidePanel) by reflexivity.
  split; [exact E|].
  exact (video_effect_changes_reach_callback_in_order w [JsString "sampleEffectId"] E).
Defined.
